(** * Distributed task runner: retry handling, dead letters and the execution pipeline

    A shallow embedding of the Python services under [app/]:
    - [app/models/task_model.py]           (Task, TaskStatus)
    - [app/core/config.py]                 (Settings)
    - [app/services/retry_handler.py]      (RetryHandler, DeadLetterQueue)
    - [app/services/task_queue.py]         (TaskQueue)
    - [app/services/redis_queue.py]        (RedisTaskQueue)
    - [app/services/enhanced_task_executor.py], [app/workers/enhanced_worker.py]
    - [app/api/tasks.py]                   (the submit endpoint)

    Conventions of the embedding.
    - Python [int] is [Z]; [dict] is stdpp's [gmap]; [None]-able values are [option].
    - Clock readings ([time.time()], [datetime.utcnow()]) are whole seconds in [Z];
      only their order and differences are used by the code.
    - Python [float] is IEEE 754 binary64 with rounding to nearest even, as
      specified by the Standard Library's [SpecFloat]; the draw of
      [random.uniform(0.1, 0.3)] is an explicit argument, a fraction read at the
      binary64 number nearest to it.
    - An exception is its class name and its [str()], the two things the code
      inspects; a coroutine is a state transformer that may raise. *)

From Stdlib Require Import ZArith QArith Qround Lia SpecFloat.
From stdpp Require Import gmap strings list fin_maps pretty.

Close Scope Q_scope.
Open Scope Z_scope.

(** ** Exceptions *)

Inductive exn : Type :=
| PyExn (cls : string) (msg : string)
| HTTPException (status_code : Z) (detail : string).

(** [type(e).__name__] *)
Definition class_name (e : exn) : string :=
  match e with
  | PyExn cls _ => cls
  | HTTPException _ _ => "HTTPException"
  end.

(** [str(e)]; Starlette renders an HTTPException as "<status>: <detail>". *)
Definition str (e : exn) : string :=
  match e with
  | PyExn _ msg => msg
  | HTTPException c d => pretty c +:+ ": " +:+ d
  end.

(** ** Payloads

    A payload travels either decoded (a Python value) or as the JSON text that
    [json.dumps] made of it.  [Dumps v] is that text; [json.loads] undoes it.
    [PyStr t] is a Python [str] whose content is the JSON text [t]: the value
    the code obtains when it hands a stored payload to a function that expects
    a decoded one. *)

Inductive pyobj : Type :=
| PyDict (body : string)
| PyStr (text : json)
with json : Type :=
| Dumps (v : pyobj).

Definition json_dumps (v : pyobj) : json := Dumps v.
Definition json_loads (t : json) : pyobj := match t with Dumps v => v end.

(** ** app/models/task_model.py *)

Inductive TaskStatus : Type := PENDING | RUNNING | COMPLETED | FAILED | RETRYING.

#[global] Instance TaskStatus_eq_dec : EqDecision TaskStatus.
Proof. solve_decision. Defined.

Module Task.
Record t : Type := mk {
  id : Z;
  task_type : string;
  payload : json;
  status : TaskStatus;
  result : option string;
  error_message : option string;
  retry_count : Z;
  max_retries : Z;
  created_at : option Z;
  started_at : option Z;
  completed_at : option Z
}.

Definition with_status (s : TaskStatus) (x : t) : t :=
  mk (id x) (task_type x) (payload x) s (result x) (error_message x)
     (retry_count x) (max_retries x) (created_at x) (started_at x) (completed_at x).
Definition with_result (r : option string) (x : t) : t :=
  mk (id x) (task_type x) (payload x) (status x) r (error_message x)
     (retry_count x) (max_retries x) (created_at x) (started_at x) (completed_at x).
Definition with_error_message (m : option string) (x : t) : t :=
  mk (id x) (task_type x) (payload x) (status x) (result x) m
     (retry_count x) (max_retries x) (created_at x) (started_at x) (completed_at x).
Definition with_retry_count (n : Z) (x : t) : t :=
  mk (id x) (task_type x) (payload x) (status x) (result x) (error_message x)
     n (max_retries x) (created_at x) (started_at x) (completed_at x).
Definition with_started_at (ts : option Z) (x : t) : t :=
  mk (id x) (task_type x) (payload x) (status x) (result x) (error_message x)
     (retry_count x) (max_retries x) (created_at x) ts (completed_at x).
Definition with_completed_at (ts : option Z) (x : t) : t :=
  mk (id x) (task_type x) (payload x) (status x) (result x) (error_message x)
     (retry_count x) (max_retries x) (created_at x) (started_at x) ts.
End Task.

(** ** app/core/config.py *)

Record Settings : Type := {
  max_retries : Z;
  retry_delay : Z
}.

Definition default_settings : Settings := {| max_retries := 3; retry_delay := 5 |}.

(** ** app/services/retry_handler.py: RetryHandler *)

Inductive RetryStrategy : Type := FIXED | EXPONENTIAL | LINEAR | JITTER.

(** The three literals ever stored under a breaker's "state" key. *)
Inductive BreakerState : Type := closed | opened | half_open.

#[global] Instance BreakerState_eq_dec : EqDecision BreakerState.
Proof. solve_decision. Defined.

Record Breaker : Type := {
  failures : Z;
  last_failure : option Z;
  state : BreakerState
}.

Record RetryHandler : Type := {
  circuit_breakers : gmap string Breaker;
  failure_threshold : Z;
  recovery_timeout : Z
}.

(** [RetryHandler.__init__] *)
Definition RetryHandler_init : RetryHandler :=
  {| circuit_breakers := ∅; failure_threshold := 5; recovery_timeout := 60 |}.

Definition with_breakers (cbs : gmap string Breaker) (rh : RetryHandler) : RetryHandler :=
  {| circuit_breakers := cbs;
     failure_threshold := failure_threshold rh;
     recovery_timeout := recovery_timeout rh |}.

(** The dict literal both [_check_circuit_breaker] and [record_failure] install. *)
Definition fresh_breaker : Breaker :=
  {| failures := 0; last_failure := None; state := closed |}.

(** [if task_type not in self.circuit_breakers: self.circuit_breakers[task_type] = {...}] *)
Definition ensure_breaker (task_type : string) (cbs : gmap string Breaker)
  : gmap string Breaker :=
  match cbs !! task_type with
  | Some _ => cbs
  | None => <[task_type := fresh_breaker]> cbs
  end.

(** Truth value of [breaker["last_failure"]]: [None] and [0] are falsy. *)
Definition truthy_time (o : option Z) : bool :=
  match o with
  | None => false
  | Some t => negb (t =? 0)
  end.

Definition _check_circuit_breaker (now : Z) (task_type : string) (rh : RetryHandler)
  : bool * RetryHandler :=
  let cbs := ensure_breaker task_type (circuit_breakers rh) in
  let breaker := default fresh_breaker (cbs !! task_type) in
  match state breaker with
  | opened =>
      if truthy_time (last_failure breaker)
         && (recovery_timeout rh <? now - default 0 (last_failure breaker))
      then
        (true,
         with_breakers
           (<[task_type := {| failures := failures breaker;
                              last_failure := last_failure breaker;
                              state := half_open |}]> cbs) rh)
      else (false, with_breakers cbs rh)
  | _ => (true, with_breakers cbs rh)
  end.

Definition record_success (task_type : string) (rh : RetryHandler) : RetryHandler :=
  match circuit_breakers rh !! task_type with
  | Some breaker =>
      match state breaker with
      | half_open =>
          with_breakers
            (<[task_type := {| failures := 0;
                               last_failure := last_failure breaker;
                               state := closed |}]> (circuit_breakers rh)) rh
      | _ => rh
      end
  | None => rh
  end.

Definition record_failure (now : Z) (task_type : string) (rh : RetryHandler)
  : RetryHandler :=
  let cbs := ensure_breaker task_type (circuit_breakers rh) in
  let breaker := default fresh_breaker (cbs !! task_type) in
  let failures' := failures breaker + 1 in
  let state' :=
    if (failure_threshold rh <=? failures')
       && negb (bool_decide (state breaker = opened))
    then opened else state breaker in
  with_breakers
    (<[task_type := {| failures := failures';
                       last_failure := Some now;
                       state := state' |}]> cbs) rh.

Definition reset_circuit_breaker (task_type : string) (rh : RetryHandler)
  : RetryHandler :=
  match circuit_breakers rh !! task_type with
  | Some _ => with_breakers (<[task_type := fresh_breaker]> (circuit_breakers rh)) rh
  | None => rh
  end.

Definition _get_retry_strategy (task_type : string) (error : exn) : RetryStrategy :=
  let error_type := class_name error in
  if bool_decide (error_type ∈ ["ConnectionError"; "TimeoutError"; "NetworkError"])
  then EXPONENTIAL
  else if bool_decide (error_type ∈ ["RateLimitError"; "TooManyRequestsError"])
  then JITTER
  else if bool_decide (error_type ∈ ["DatabaseError"; "ConnectionPoolError"])
  then LINEAR
  else EXPONENTIAL.

(** *** Python floats

    CPython's [float] is the IEEE 754 binary64 format: 53 bits of precision,
    exponents below 1024, every operation rounded to the nearest value, ties to
    even. *)
Definition prec : Z := 53.
Definition emax : Z := 1024.

(** [float(z)] for an [int], also the conversion Python applies to the [int]
    operand of a mixed [float * int] or [int + float]: correctly rounded, and
    an OverflowError when the value is beyond the largest float. *)
Definition float_of_int (z : Z) : exn + spec_float :=
  match binary_normalize prec emax z 0 false with
  | S754_infinity _ => inl (PyExn "OverflowError" "int too large to convert to float")
  | x => inr x
  end.

(** The binary64 number nearest to a fraction; a binary64 number written as
    [m # 2^k] with [m < 2^53] is taken as it is. *)
Definition float_of_Q (q : Q) : spec_float :=
  SFdiv prec emax (binary_normalize prec emax (Qnum q) 0 false)
                  (binary_normalize prec emax (Zpos (Qden q)) 0 false).

Definition float_mul : spec_float -> spec_float -> spec_float := SFmul prec emax.
Definition float_add : spec_float -> spec_float -> spec_float := SFadd prec emax.

(** [int(x)] on a float: truncation toward zero; an infinity raises
    OverflowError and a NaN raises ValueError. *)
Definition py_int (x : spec_float) : exn + Z :=
  match x with
  | S754_zero _ => inr 0
  | S754_finite s m e =>
      let magnitude :=
        match e with
        | Zneg p => Z.quot (Zpos m) (2 ^ Zpos p)
        | _ => Zpos m * 2 ^ e
        end in
      inr (if s then - magnitude else magnitude)
  | S754_infinity _ =>
      inl (PyExn "OverflowError" "cannot convert float infinity to integer")
  | S754_nan => inl (PyExn "ValueError" "cannot convert float NaN to integer")
  end.

(** The sign bit is clear, or the value is a NaN. *)
Definition float_nonneg (x : spec_float) : Prop :=
  match x with
  | S754_zero s | S754_infinity s | S754_finite s _ _ => s = false
  | S754_nan => True
  end.

(** [u] is the value drawn by [random.uniform(0.1, 0.3)].  The result is the
    delay, or the exception raised on the way: the product
    [random.uniform(0.1, 0.3) * exponential_delay] converts the [int] to a float
    first, and [int(delay)] refuses an infinite sum.  Retry counts are read as
    the table holds them, from [0] upwards ([2 ** n] is an [int] there). *)
Definition _calculate_retry_delay (settings : Settings) (u : Q)
    (task : Task.t) (error : exn) : exn + Z :=
  let strategy := _get_retry_strategy (Task.task_type task) error in
  let base_delay := retry_delay settings in
  match strategy with
  | FIXED => inr base_delay
  | EXPONENTIAL =>
      let delay := base_delay * 2 ^ Task.retry_count task in
      inr (Z.min delay 300)
  | LINEAR =>
      let delay := base_delay * (Task.retry_count task + 1) in
      inr (Z.min delay 120)
  | JITTER =>
      let exponential_delay := base_delay * 2 ^ Task.retry_count task in
      match float_of_int exponential_delay with
      | inl overflow => inl overflow
      | inr x =>
          let jitter := float_mul (float_of_Q u) x in
          let delay := float_add x jitter in
          match py_int delay with
          | inl overflow => inl overflow
          | inr seconds => inr (Z.min seconds 300)
          end
      end
  end.

(** In the source an exception raised by [_calculate_retry_delay] escapes
    [should_retry].  It is raised only for a jittered delay whose exponential
    part is beyond the float range, which with the default base takes a retry
    count above a thousand; the answer of [should_retry] has no form for it
    here and carries the cap of 300 seconds instead.  What is stated about a
    jittered delay is stated where the computation returns. *)
Definition should_retry (settings : Settings) (now : Z) (u : Q)
    (task : Task.t) (error : exn) (rh : RetryHandler)
  : (bool * option Z) * RetryHandler :=
  if Task.max_retries task <=? Task.retry_count task then ((false, None), rh)
  else
    let '(allowed, rh') := _check_circuit_breaker now (Task.task_type task) rh in
    if negb allowed then ((false, None), rh')
    else
      match _calculate_retry_delay settings u task error with
      | inr delay => ((true, Some delay), rh')
      | inl _ => ((true, Some 300), rh')
      end.

(** ** app/services/retry_handler.py: DeadLetterQueue *)

Module DeadLetter.
Record t : Type := mk {
  task_id : Z;
  task_type : string;
  payload : json;
  error_message : string;
  error_type : string;
  retry_count : Z;
  max_retries : Z;
  created_at : option Z;
  failed_at : Z
}.
End DeadLetter.

(** The snapshot [add_dead_letter] builds from the task object it is given. *)
Definition dead_letter_of (now : Z) (task : Task.t) (error : exn) : DeadLetter.t :=
  {| DeadLetter.task_id := Task.id task;
     DeadLetter.task_type := Task.task_type task;
     DeadLetter.payload := Task.payload task;
     DeadLetter.error_message := str error;
     DeadLetter.error_type := class_name error;
     DeadLetter.retry_count := Task.retry_count task;
     DeadLetter.max_retries := Task.max_retries task;
     DeadLetter.created_at := Task.created_at task;
     DeadLetter.failed_at := now |}.

Definition add_dead_letter (now : Z) (task : Task.t) (error : exn)
    (dead_tasks : gmap Z DeadLetter.t) : gmap Z DeadLetter.t :=
  <[Task.id task := dead_letter_of now task error]> dead_tasks.

(** Truth value of an optional [str] argument: [None] and the empty string are falsy. *)
Definition truthy_str (o : option string) : bool :=
  match o with
  | None => false
  | Some s => negb (bool_decide (s = ""))
  end.

(** The test of the first loop of [purge_dead_letters]. *)
Definition purge_selects (cutoff_time : Z) (task_type : option string)
    (dead_task : DeadLetter.t) : bool :=
  if truthy_str task_type
     && negb (bool_decide (Some (DeadLetter.task_type dead_task) = task_type))
  then false
  else DeadLetter.failed_at dead_task <? cutoff_time.

Definition purge_dead_letters (now : Z) (task_type : option string)
    (older_than_hours : Z) (dead_tasks : gmap Z DeadLetter.t)
  : Z * gmap Z DeadLetter.t :=
  let cutoff_time := now - older_than_hours * 3600 in
  let to_remove :=
    (filter (fun kv => purge_selects cutoff_time task_type kv.2 = true)
            (map_to_list dead_tasks)).*1 in
  (Z.of_nat (length to_remove), foldr delete dead_tasks to_remove).

(** ** The process state the coroutines run against *)

Module Envelope.
Record t : Type := mk {
  id : Z;
  task_type : string;
  payload : pyobj;
  created_at : option Z
}.
End Envelope.

(** [TaskQueue]: the tasks table with its row-id counter, the asyncio queue
    and the in-memory cache keyed by [str(task.id)]. *)
Record TaskQueueState : Type := {
  table : gmap Z Task.t;
  next_id : Z;
  _queue : list Z;
  _tasks : gmap string Task.t
}.

(** [RedisTaskQueue]: the client ([false] while it is still [None]), the list
    under "task_queue" (head = left end) and the "processing:<id>" keys with
    the time at which each expires. *)
Record RedisQueueState : Type := {
  redis_client : bool;
  redis_list : list Envelope.t;
  processing : gmap Z Z
}.

Record Stats : Type := {
  total_executed : Z;
  successful : Z;
  failed : Z;
  retried : Z
}.

Record World : Type := {
  settings : Settings;
  clock : Z;
  task_queue : TaskQueueState;
  redis_queue : RedisQueueState;
  retry_handler : RetryHandler;
  dead_tasks : gmap Z DeadLetter.t;
  execution_stats : Stats;
  (** coroutines handed to [asyncio.create_task]: the task object each one
      holds and the delay it sleeps first *)
  timers : list (Task.t * Z);
  (** ghost log: ids of the tasks whose handler has been invoked *)
  handler_calls : list Z;
  tasks_processed : Z
}.

Definition with_clock (x : Z) (w : World) : World :=
  Build_World (settings w) x (task_queue w) (redis_queue w) (retry_handler w)
    (dead_tasks w) (execution_stats w) (timers w) (handler_calls w) (tasks_processed w).
Definition with_task_queue (x : TaskQueueState) (w : World) : World :=
  Build_World (settings w) (clock w) x (redis_queue w) (retry_handler w)
    (dead_tasks w) (execution_stats w) (timers w) (handler_calls w) (tasks_processed w).
Definition with_redis_queue (x : RedisQueueState) (w : World) : World :=
  Build_World (settings w) (clock w) (task_queue w) x (retry_handler w)
    (dead_tasks w) (execution_stats w) (timers w) (handler_calls w) (tasks_processed w).
Definition with_retry_handler (x : RetryHandler) (w : World) : World :=
  Build_World (settings w) (clock w) (task_queue w) (redis_queue w) x
    (dead_tasks w) (execution_stats w) (timers w) (handler_calls w) (tasks_processed w).
Definition with_dead_tasks (x : gmap Z DeadLetter.t) (w : World) : World :=
  Build_World (settings w) (clock w) (task_queue w) (redis_queue w) (retry_handler w)
    x (execution_stats w) (timers w) (handler_calls w) (tasks_processed w).
Definition with_execution_stats (x : Stats) (w : World) : World :=
  Build_World (settings w) (clock w) (task_queue w) (redis_queue w) (retry_handler w)
    (dead_tasks w) x (timers w) (handler_calls w) (tasks_processed w).
Definition with_timers (x : list (Task.t * Z)) (w : World) : World :=
  Build_World (settings w) (clock w) (task_queue w) (redis_queue w) (retry_handler w)
    (dead_tasks w) (execution_stats w) x (handler_calls w) (tasks_processed w).
Definition with_handler_calls (x : list Z) (w : World) : World :=
  Build_World (settings w) (clock w) (task_queue w) (redis_queue w) (retry_handler w)
    (dead_tasks w) (execution_stats w) (timers w) x (tasks_processed w).
Definition with_tasks_processed (x : Z) (w : World) : World :=
  Build_World (settings w) (clock w) (task_queue w) (redis_queue w) (retry_handler w)
    (dead_tasks w) (execution_stats w) (timers w) (handler_calls w) x.

(** A freshly started process: empty table, connected client, no breakers. *)
Definition initial_world : World :=
  {| settings := default_settings;
     clock := 1;
     task_queue := {| table := ∅; next_id := 1; _queue := []; _tasks := ∅ |};
     redis_queue := {| redis_client := true; redis_list := []; processing := ∅ |};
     retry_handler := RetryHandler_init;
     dead_tasks := ∅;
     execution_stats :=
       {| total_executed := 0; successful := 0; failed := 0; retried := 0 |};
     timers := [];
     handler_calls := [];
     tasks_processed := 0 |}.

(** ** Coroutines: state transformers that may raise

    A raised exception keeps the state reached so far, as in Python. *)

Definition M (A : Type) : Type := World -> (exn + A) * World.

Definition ret {A : Type} (a : A) : M A := fun w => (inr a, w).
Definition raise {A : Type} (e : exn) : M A := fun w => (inl e, w).
Definition bind {A B : Type} (m : M A) (k : A -> M B) : M B :=
  fun w =>
    match m w with
    | (inl e, w') => (inl e, w')
    | (inr a, w') => k a w'
    end.
Definition try_except {A : Type} (m : M A) (handler : exn -> M A) : M A :=
  fun w =>
    match m w with
    | (inl e, w') => handler e w'
    | (inr a, w') => (inr a, w')
    end.
Definition get : M World := fun w => (inr w, w).
Definition modify (f : World -> World) : M unit := fun w => (inr tt, f w).

Declare Scope M_scope.
Delimit Scope M_scope with M.
Notation "'let*' x ':=' m 'in' k" := (bind m (fun x => k))
  (at level 10, x pattern, m at level 100, k at level 200) : M_scope.
Notation "m ';;' k" := (bind m (fun _ => k))
  (at level 100, k at level 200, right associativity) : M_scope.

Open Scope M_scope.

(** ** app/services/task_queue.py *)

Module TaskQueue.

(** The row written back by [session.commit()] is also what the cache keeps. *)
Definition store_row (task : Task.t) (tq : TaskQueueState) : TaskQueueState :=
  {| table := <[Task.id task := task]> (table tq);
     next_id := next_id tq;
     _queue := _queue tq;
     _tasks := <[pretty (Task.id task) := task]> (_tasks tq) |}.

Definition create_task (task_type : string) (payload : pyobj) : M Task.t :=
  let* w := get in
  let tq := task_queue w in
  let task :=
    Task.mk (next_id tq) task_type (json_dumps payload) PENDING None None
            0 (max_retries (settings w)) (Some (clock w)) None None in
  modify (with_task_queue
            {| table := <[Task.id task := task]> (table tq);
               next_id := next_id tq + 1;
               _queue := _queue tq ++ [Task.id task];
               _tasks := <[pretty (Task.id task) := task]> (_tasks tq) |}) ;;
  ret task.

(** The object returned is detached from its session: later assignments to
    its attributes stay on that object and are never written to the table. *)
Definition get_task (task_id : Z) : M (option Task.t) :=
  let* w := get in
  ret (table (task_queue w) !! task_id).

(** The attribute assignments [update_task_status] makes on the loaded row. *)
Definition updated_row (now : Z) (status : TaskStatus)
    (result : option string) (error_message : option string) (task : Task.t)
  : Task.t :=
  let task := Task.with_status status task in
  let task :=
    match result with
    | Some r => Task.with_result (Some r) task
    | None => task
    end in
  let task :=
    match error_message with
    | Some m => Task.with_error_message (Some m) task
    | None => task
    end in
  if bool_decide (status = RUNNING) && bool_decide (Task.started_at task = None)
  then Task.with_started_at (Some now) task
  else if bool_decide (status ∈ [COMPLETED; FAILED])
  then Task.with_completed_at (Some now) task
  else task.

Definition update_task_status (task_id : Z) (status : TaskStatus)
    (result : option string) (error_message : option string) : M Task.t :=
  let* w := get in
  match table (task_queue w) !! task_id with
  | None => raise (PyExn "ValueError" ("Task " +:+ pretty task_id +:+ " not found"))
  | Some task =>
      let task := updated_row (clock w) status result error_message task in
      modify (fun w => with_task_queue (store_row task (task_queue w)) w) ;;
      ret task
  end.

Definition retry_task (task_id : Z) : M Task.t :=
  let* w := get in
  match table (task_queue w) !! task_id with
  | None => raise (PyExn "ValueError" ("Task " +:+ pretty task_id +:+ " not found"))
  | Some task =>
      if Task.max_retries task <=? Task.retry_count task then
        let task := Task.with_status FAILED task in
        let task :=
          Task.with_error_message
            (Some ("Max retries (" +:+ pretty (Task.max_retries task) +:+ ") exceeded"))
            task in
        modify (fun w =>
          let tq := task_queue w in
          with_task_queue
            {| table := <[task_id := task]> (table tq); next_id := next_id tq;
               _queue := _queue tq; _tasks := _tasks tq |} w) ;;
        ret task
      else
        let task := Task.with_retry_count (Task.retry_count task + 1) task in
        let task := Task.with_status RETRYING task in
        let task := Task.with_error_message None task in
        modify (fun w =>
          let tq := task_queue w in
          with_task_queue
            {| table := <[task_id := task]> (table tq); next_id := next_id tq;
               _queue := _queue tq ++ [Task.id task]; _tasks := _tasks tq |} w) ;;
        ret task
  end.

End TaskQueue.

(** ** app/services/redis_queue.py *)

Module RedisTaskQueue.

(** A method call on the client while it is still [None]. *)
Definition no_client (method : string) : exn :=
  PyExn "AttributeError" ("'NoneType' object has no attribute '" +:+ method +:+ "'").

Definition lpush (task_data : Envelope.t) : M unit :=
  let* w := get in
  let rq := redis_queue w in
  if redis_client rq then
    modify (with_redis_queue
              {| redis_client := redis_client rq;
                 redis_list := task_data :: redis_list rq;
                 processing := processing rq |})
  else raise (no_client "lpush").

Definition create_task (task_type : string) (payload : pyobj) : M Task.t :=
  let* task := TaskQueue.create_task task_type payload in
  let task_data :=
    {| Envelope.id := Task.id task;
       Envelope.task_type := task_type;
       Envelope.payload := payload;
       Envelope.created_at := Task.created_at task |} in
  lpush task_data ;;
  ret task.

(** [brpop] with its timeout elapsed on an empty list yields [None]; any
    exception is logged and turned into [None] as well. *)
Definition get_next_task : M (option Envelope.t) :=
  try_except
    (let* w := get in
     let rq := redis_queue w in
     if redis_client rq then
       match last (redis_list rq) with
       | Some task_data =>
           modify (with_redis_queue
                     {| redis_client := redis_client rq;
                        redis_list := removelast (redis_list rq);
                        processing :=
                          <[Envelope.id task_data := clock w + 300]> (processing rq) |}) ;;
           ret (Some task_data)
       | None => ret None
       end
     else raise (no_client "brpop"))
    (fun _ => ret None).

Definition complete_task (task_id : Z) : M unit :=
  let* w := get in
  let rq := redis_queue w in
  if redis_client rq then
    modify (with_redis_queue
              {| redis_client := redis_client rq;
                 redis_list := redis_list rq;
                 processing := delete task_id (processing rq) |})
  else raise (no_client "delete").

End RedisTaskQueue.

(** ** app/services/retry_handler.py: DeadLetterQueue.retry_dead_letter *)

Module DeadLetterQueue.

Definition retry_dead_letter (task_id : Z) : M bool :=
  let* w := get in
  match dead_tasks w !! task_id with
  | None => ret false
  | Some dead_task =>
      try_except
        (let* task := TaskQueue.get_task task_id in
         match task with
         | Some task =>
             (* task.retry_count = 0; task.status = PENDING: on the detached object *)
             let task := Task.with_status PENDING (Task.with_retry_count 0 task) in
             TaskQueue.update_task_status task_id PENDING None None ;;
             RedisTaskQueue.create_task (Task.task_type task)
               (PyStr (DeadLetter.payload dead_task)) ;;
             modify (fun w => with_dead_tasks (delete task_id (dead_tasks w)) w) ;;
             ret true
         | None => ret false
         end)
        (fun _ => ret false)
  end.

End DeadLetterQueue.

(** ** app/services/enhanced_task_executor.py *)

(** What one handler invocation does is left to the caller of the model: how
    long it ran and whether it returned a result (the JSON text of the dict
    it built) or raised.  This covers the simulated errors the handlers draw
    at random as well as failures while decoding the payload. *)
Record HandlerRun : Type := {
  elapsed : Z;
  outcome : exn + string
}.

Definition bump_total_executed (s : Stats) : Stats :=
  {| total_executed := total_executed s + 1; successful := successful s;
     failed := failed s; retried := retried s |}.
Definition bump_successful (s : Stats) : Stats :=
  {| total_executed := total_executed s; successful := successful s + 1;
     failed := failed s; retried := retried s |}.
Definition bump_failed (s : Stats) : Stats :=
  {| total_executed := total_executed s; successful := successful s;
     failed := failed s + 1; retried := retried s |}.
Definition bump_retried (s : Stats) : Stats :=
  {| total_executed := total_executed s; successful := successful s;
     failed := failed s; retried := retried s + 1 |}.

Module EnhancedTaskExecutor.

Definition count (f : Stats -> Stats) : M unit :=
  modify (fun w => with_execution_stats (f (execution_stats w)) w).

(** The body shared by the four [_..._with_errors] handlers. *)
Definition handler (run : HandlerRun) (task : Task.t) : M string :=
  modify (fun w =>
    with_handler_calls (handler_calls w ++ [Task.id task])
      (with_clock (clock w + elapsed run) w)) ;;
  match outcome run with
  | inl e => raise e
  | inr result => ret result
  end.

Definition _process_text_with_errors := handler.
Definition _ai_summarize_with_errors := handler.
Definition _batch_process_with_errors := handler.
Definition _process_image_with_errors := handler.

(** [await asyncio.sleep(delay)], then the requeue; nothing escapes. *)
Definition _retry_after_delay (task : Task.t) (delay : Z) : M unit :=
  modify (fun w => with_clock (clock w + delay) w) ;;
  try_except
    (let payload := json_loads (Task.payload task) in
     RedisTaskQueue.create_task (Task.task_type task) payload ;;
     ret tt)
    (fun _ => ret tt).

Definition _schedule_retry (task : Task.t) (delay : Z) : M unit :=
  TaskQueue.update_task_status (Task.id task) RETRYING None None ;;
  (* task.retry_count += 1: on the object the worker loaded *)
  let task := Task.with_retry_count (Task.retry_count task + 1) task in
  modify (fun w => with_timers (timers w ++ [(task, delay)]) w).

Definition execute_task (run : HandlerRun) (u : Q) (task : Task.t) : M string :=
  count bump_total_executed ;;
  try_except
    (TaskQueue.update_task_status (Task.id task) RUNNING None None ;;
     let* result :=
       if bool_decide (Task.task_type task = "text_processing")
       then _process_text_with_errors run task
       else if bool_decide (Task.task_type task = "ai_summarization")
       then _ai_summarize_with_errors run task
       else if bool_decide (Task.task_type task = "batch_processing")
       then _batch_process_with_errors run task
       else if bool_decide (Task.task_type task = "image_processing")
       then _process_image_with_errors run task
       else raise (PyExn "ValueError"
                     ("Unknown task type: " +:+ Task.task_type task)) in
     TaskQueue.update_task_status (Task.id task) COMPLETED (Some result) None ;;
     modify (fun w =>
       with_retry_handler
         (record_success (Task.task_type task) (retry_handler w)) w) ;;
     count bump_successful ;;
     ret result)
    (fun e =>
     modify (fun w =>
       with_retry_handler
         (record_failure (clock w) (Task.task_type task) (retry_handler w)) w) ;;
     let* w := get in
     let '((retry, delay), rh) :=
       should_retry (settings w) (clock w) u task e (retry_handler w) in
     modify (with_retry_handler rh) ;;
     (if retry then
        (* delay is an int whenever should_retry answers True *)
        _schedule_retry task (default 0 delay) ;;
        count bump_retried
      else
        TaskQueue.update_task_status (Task.id task) FAILED None (Some (str e)) ;;
        modify (fun w =>
          with_dead_tasks (add_dead_letter (clock w) task e (dead_tasks w)) w) ;;
        count bump_failed) ;;
     raise e).

End EnhancedTaskExecutor.

(** ** app/workers/enhanced_worker.py *)

Module EnhancedWorker.

Definition _process_task (run : HandlerRun) (u : Q) (task_data : Envelope.t)
  : M unit :=
  let task_id := Envelope.id task_data in
  try_except
    (let* task := TaskQueue.get_task task_id in
     match task with
     | None => ret tt
     | Some task =>
         EnhancedTaskExecutor.execute_task run u task ;;
         RedisTaskQueue.complete_task task_id ;;
         modify (fun w => with_tasks_processed (tasks_processed w + 1) w)
     end)
    (fun _ => ret tt).

End EnhancedWorker.

(** ** app/api/tasks.py *)

Module TasksApi.

Definition valid_task_types : list string :=
  ["text_processing"; "ai_summarization"; "batch_processing"; "image_processing"].

Definition invalid_detail : string :=
  "Invalid task_type. Must be one of: ['text_processing', 'ai_summarization', 'batch_processing', 'image_processing']".

(** [POST /tasks/]: the whole body sits in [try: ... except Exception as e]. *)
Definition create_task (task_type : string) (payload : pyobj) : M Task.t :=
  try_except
    ((if bool_decide (task_type ∈ valid_task_types) then ret tt
      else raise (HTTPException 400 invalid_detail)) ;;
     let* task := RedisTaskQueue.create_task task_type payload in
     ret task)
    (fun e => raise (HTTPException 500 (str e))).

(** [GET /tasks/{task_id}]: here [except HTTPException: raise] comes first. *)
Definition get_task (task_id : Z) : M Task.t :=
  try_except
    (let* task := TaskQueue.get_task task_id in
     match task with
     | None => raise (HTTPException 404 "Task not found")
     | Some task => ret task
     end)
    (fun e =>
       match e with
       | HTTPException _ _ => raise e
       | _ => raise (HTTPException 500 (str e))
       end).

(** The status the framework answers with: the route's success code, the
    code of a raised HTTPException, 500 for anything else. *)
Definition response_status {A : Type} (success : Z) (r : exn + A) : Z :=
  match r with
  | inr _ => success
  | inl (HTTPException code _) => code
  | inl _ => 500
  end.

End TasksApi.

Close Scope M_scope.

(** ** Runs of breaker operations *)

Inductive BreakerOp : Type :=
| OpCheck (now : Z) (task_type : string)
| OpSuccess (task_type : string)
| OpFailure (now : Z) (task_type : string)
| OpReset (task_type : string).

Definition op_kind (op : BreakerOp) : string :=
  match op with
  | OpCheck _ k | OpSuccess k | OpFailure _ k | OpReset k => k
  end.

Definition apply_op (op : BreakerOp) (rh : RetryHandler) : RetryHandler :=
  match op with
  | OpCheck now k => (_check_circuit_breaker now k rh).2
  | OpSuccess k => record_success k rh
  | OpFailure now k => record_failure now k rh
  | OpReset k => reset_circuit_breaker k rh
  end.

Definition run_ops (ops : list BreakerOp) (rh : RetryHandler) : RetryHandler :=
  foldl (fun rh op => apply_op op rh) rh ops.

Definition is_failure_of (k : string) (op : BreakerOp) : bool :=
  match op with
  | OpFailure _ k' => bool_decide (k' = k)
  | _ => false
  end.

(** Number of [record_failure] calls for kind [k] in a run. *)
Definition failures_in (k : string) (ops : list BreakerOp) : Z :=
  Z.of_nat (length (filter (fun op => is_failure_of k op = true) ops)).

(** No [record_success] and no reset for kind [k]: what is left for [k] are
    failures and breaker checks. *)
Definition no_success_of (k : string) (op : BreakerOp) : bool :=
  match op with
  | OpSuccess k' | OpReset k' => negb (bool_decide (k' = k))
  | _ => true
  end.

(** No breaker check and no reset for kind [k]: only failures and successes. *)
Definition only_outcomes_of (k : string) (op : BreakerOp) : bool :=
  match op with
  | OpCheck _ k' | OpReset k' => negb (bool_decide (k' = k))
  | _ => true
  end.

Definition other_kind (k : string) (op : BreakerOp) : bool :=
  negb (bool_decide (op_kind op = k)).

(** The failure counter of kind [k], 0 while no record exists. *)
Definition failures_of (k : string) (rh : RetryHandler) : Z :=
  failures (default fresh_breaker (circuit_breakers rh !! k)).

Definition state_of (k : string) (rh : RetryHandler) : BreakerState :=
  state (default fresh_breaker (circuit_breakers rh !! k)).

(** Counters never go below zero. *)
Definition breakers_wf (rh : RetryHandler) : Prop :=
  forall k b, circuit_breakers rh !! k = Some b -> 0 <= failures b.

(** Every dead letter is filed under its own task id. *)
Definition dlq_wf (dead : gmap Z DeadLetter.t) : Prop :=
  forall k e, dead !! k = Some e -> DeadLetter.task_id e = k.

(** ** Requirements as the specification words them *)

(** The transition DAG of the specification (I5):
    PENDING -> RUNNING -> {COMPLETED, FAILED, RETRYING}, RETRYING -> RUNNING. *)
Definition legal_transition (from to : TaskStatus) : bool :=
  match from, to with
  | PENDING, RUNNING => true
  | RUNNING, (COMPLETED | FAILED | RETRYING) => true
  | RETRYING, RUNNING => true
  | _, _ => false
  end.

(** "update_status rejects illegal transitions with InvalidTransition". *)
Definition rejects_illegal_transitions : Prop :=
  forall (w : World) (task_id : Z) (task : Task.t) (status : TaskStatus)
         (result error_message : option string),
    table (task_queue w) !! task_id = Some task ->
    legal_transition (Task.status task) status = false ->
    Task.status task <> status ->
    exists msg,
      (TaskQueue.update_task_status task_id status result error_message w).1 =
        inl (PyExn "InvalidTransition" msg).


(** "After the recovery timeout the next allow? yields true exactly once":
    a second check, with no outcome recorded in between, is refused. *)
Definition half_open_single_probe : Prop :=
  forall (rh : RetryHandler) (k : string) (b : Breaker) (t now now' : Z),
    circuit_breakers rh !! k = Some b ->
    state b = opened ->
    last_failure b = Some t ->
    t <> 0 ->
    recovery_timeout rh < now - t ->
    (_check_circuit_breaker now k rh).1 = true
    /\ (_check_circuit_breaker now' k (_check_circuit_breaker now k rh).2).1 = false.


(** ** Sample states *)

Definition pending_task : Task.t :=
  Task.mk 1 "text_processing" (Dumps (PyDict "{}")) PENDING None None
          0 3 (Some 1) None None.

(** A started process whose table holds exactly [task]. *)
Definition world_with (task : Task.t) (next : Z) : World :=
  with_task_queue
    {| table := {[Task.id task := task]}; next_id := next; _queue := [];
       _tasks := {[pretty (Task.id task) := task]} |}
    initial_world.


Definition failed_task : Task.t :=
  Task.mk 42 "text_processing" (Dumps (PyDict "{}")) FAILED None (Some "boom")
          3 3 (Some 1) (Some 2) (Some 3).

Definition envelope_1 : Envelope.t :=
  Envelope.mk 1 "text_processing" (PyDict "{}") (Some 1).

Definition returning_run : HandlerRun := {| elapsed := 3; outcome := inr "r1" |}.

Definition timeout_run : HandlerRun :=
  {| elapsed := 3; outcome := inl (PyExn "TimeoutError" "boom") |}.

(** Task 42 has failed for good and sits in the dead-letter dict. *)
Definition dead_letter_world : World :=
  with_dead_tasks
    {[42 := dead_letter_of 3 failed_task (PyExn "TimeoutError" "boom")]}
    (world_with failed_task 43).

(** A breaker that opened at time 100. *)
Definition tripped_handler : RetryHandler :=
  with_breakers
    {["text_processing" :=
        {| failures := 5; last_failure := Some 100; state := opened |}]}
    RetryHandler_init.

(** The binary64 number that the literal [0.15] denotes,
    [0x1.3333333333333p-3]: a possible draw of [random.uniform(0.1, 0.3)]. *)
Definition draw_0_15 : Q := 5404319552844595 # 36028797018963968.

Definition rate_limited : exn := PyExn "RateLimitError" "slow down".

(** A task that has been retried twice out of three times. *)
Definition retried_twice : Task.t := Task.with_retry_count 2 pending_task.

(** A registry whose breaker for ["k"] is CLOSED with two failures counted. *)
Definition counting_registry : RetryHandler :=
  run_ops [OpFailure 10 "k"; OpFailure 20 "k"] RetryHandler_init.

(** ** Further operations of the services *)

(** [RetryHandler.get_circuit_breaker_status]: a copy of the registry dict. *)
Definition get_circuit_breaker_status (rh : RetryHandler) : gmap string Breaker :=
  circuit_breakers rh.

(** [DeadLetterQueue.get_dead_letters].  The dict hands its values out in
    insertion order, which the map does not keep: the list is the source's
    list up to the order of its elements. *)
Definition get_dead_letters (task_type : option string)
    (dead : gmap Z DeadLetter.t) : list DeadLetter.t :=
  if truthy_str task_type
  then filter (fun task => Some (DeadLetter.task_type task) = task_type)
              (map_to_list dead).*2
  else (map_to_list dead).*2.

Open Scope M_scope.

(** [TaskQueue.get_next_task]: [asyncio.wait_for(self._queue.get(), timeout=1.0)]
    takes the oldest id, or gives up after one second on an empty queue. *)
Definition TaskQueue_get_next_task : M (option Task.t) :=
  let* w := get in
  let tq := task_queue w in
  match _queue tq with
  | task_id :: rest =>
      modify (with_task_queue
                {| table := table tq; next_id := next_id tq;
                   _queue := rest; _tasks := _tasks tq |}) ;;
      TaskQueue.get_task task_id
  | [] =>
      modify (fun w => with_clock (clock w + 1) w) ;;
      ret None
  end.

(** ** app/services/task_executor.py *)

Module TaskExecutor.

(** The four handlers of the plain executor draw no errors of their own, but
    they decode the payload and may still raise; their one invocation is
    described by the caller as for the enhanced executor. *)
Definition _process_text := EnhancedTaskExecutor.handler.
Definition _ai_summarize := EnhancedTaskExecutor.handler.
Definition _batch_process := EnhancedTaskExecutor.handler.
Definition _process_image := EnhancedTaskExecutor.handler.

Definition execute_task (run : HandlerRun) (task : Task.t) : M string :=
  try_except
    (TaskQueue.update_task_status (Task.id task) RUNNING None None ;;
     let* result :=
       if bool_decide (Task.task_type task = "text_processing")
       then _process_text run task
       else if bool_decide (Task.task_type task = "ai_summarization")
       then _ai_summarize run task
       else if bool_decide (Task.task_type task = "batch_processing")
       then _batch_process run task
       else if bool_decide (Task.task_type task = "image_processing")
       then _process_image run task
       else raise (PyExn "ValueError"
                     ("Unknown task type: " +:+ Task.task_type task)) in
     TaskQueue.update_task_status (Task.id task) COMPLETED (Some result) None ;;
     ret result)
    (fun e =>
     TaskQueue.update_task_status (Task.id task) FAILED None (Some (str e)) ;;
     (if Task.retry_count task <? Task.max_retries task then
        (* await asyncio.sleep(settings.retry_delay) *)
        modify (fun w => with_clock (clock w + retry_delay (settings w)) w) ;;
        TaskQueue.retry_task (Task.id task) ;;
        ret tt
      else ret tt) ;;
     raise e).

End TaskExecutor.

(** ** app/workers/worker.py *)

Module Worker.

(** One turn of the [while self.running] loop.  The pause of a tenth of a
    second on an empty queue is below the resolution of the clock. *)
Definition step (run : HandlerRun) : M unit :=
  try_except
    (let* task := TaskQueue_get_next_task in
     match task with
     | Some task => TaskExecutor.execute_task run task ;; ret tt
     | None => ret tt
     end)
    (fun _ => modify (fun w => with_clock (clock w + 1) w)).

(** As many turns of the loop as there are handler runs to describe. *)
Fixpoint steps (runs : list HandlerRun) : M unit :=
  match runs with
  | [] => ret tt
  | run :: runs => step run ;; steps runs
  end.

End Worker.

(** ** app/workers/redis_worker.py *)

Module RedisWorker.

(** [redis_worker.py] imports neither [Task] nor [TaskStatus]: evaluating the
    argument [TaskStatus.FAILED] of the handler raises NameError before
    [update_task_status] is called. *)
Definition TaskStatus_FAILED : M TaskStatus :=
  raise (PyExn "NameError" "name 'TaskStatus' is not defined").

(** The load of the row opens the [try] block of the source; it cannot raise,
    so the handler of that block always finds [task] bound. *)
Definition _process_task (run : HandlerRun) (task_data : Envelope.t) : M unit :=
  let task_id := Envelope.id task_data in
  let* task := TaskQueue.get_task task_id in
  match task with
  | None => ret tt
  | Some task =>
      try_except
        (TaskExecutor.execute_task run task ;;
         RedisTaskQueue.complete_task task_id)
        (fun e =>
           try_except
             (let* status := TaskStatus_FAILED in
              TaskQueue.update_task_status task_id status None (Some (str e)) ;;
              if Task.retry_count task <? Task.max_retries task then
                TaskQueue.retry_task task_id ;; ret tt
              else ret tt)
             (fun _ => ret tt))
  end.

End RedisWorker.

(** ** app/workers/enhanced_worker.py: the loop *)

(** One turn of the [while self.running] loop of [EnhancedWorker.start]; the
    pause of a tenth of a second on an empty list is below the resolution of
    the clock. *)
Definition EnhancedWorker_step (run : HandlerRun) (u : Q) : M unit :=
  try_except
    (let* task_data := RedisTaskQueue.get_next_task in
     match task_data with
     | Some task_data => EnhancedWorker._process_task run u task_data
     | None => ret tt
     end)
    (fun _ => modify (fun w => with_clock (clock w + 1) w)).

(** As many turns as there are handler runs (and jitter draws) to describe. *)
Fixpoint EnhancedWorker_steps (runs : list (HandlerRun * Q)) : M unit :=
  match runs with
  | [] => ret tt
  | (run, u) :: runs => EnhancedWorker_step run u ;; EnhancedWorker_steps runs
  end.

(** ** app/api/retry_management.py *)

Module RetryManagementApi.

(** [POST /retry/dead-letters/{task_id}/retry] *)
Definition retry_dead_letter (task_id : Z) : M string :=
  try_except
    (let* success := DeadLetterQueue.retry_dead_letter task_id in
     if success
     then ret ("Dead letter task " +:+ pretty task_id +:+ " requeued for retry")
     else raise (HTTPException 404
                   ("Dead letter task " +:+ pretty task_id +:+ " not found")))
    (fun e =>
       match e with
       | HTTPException _ _ => raise e
       | _ => raise (HTTPException 500 (str e))
       end).

(** [POST /retry/simulate-failure] *)
Definition simulate_failure (task_type : string) : M unit :=
  try_except
    (modify (fun w =>
       with_retry_handler (record_failure (clock w) task_type (retry_handler w)) w))
    (fun e => raise (HTTPException 500 (str e))).

Record CircuitBreakerStats : Type := {
  total_circuit_breakers : Z;
  open_circuits : Z;
  half_open_circuits : Z;
  closed_circuits : Z
}.

(** [len([cb for cb in circuit_breakers.values() if cb["state"] == s])] *)
Definition count_state (s : BreakerState) (cbs : gmap string Breaker) : Z :=
  Z.of_nat (length (filter (fun cb => state cb = s) (map_to_list cbs).*2)).

(** The [cb_stats] dict of [GET /retry/stats]. *)
Definition cb_stats (rh : RetryHandler) : CircuitBreakerStats :=
  let circuit_breakers := get_circuit_breaker_status rh in
  {| total_circuit_breakers := Z.of_nat (size circuit_breakers);
     open_circuits := count_state opened circuit_breakers;
     half_open_circuits := count_state half_open circuit_breakers;
     closed_circuits := count_state closed circuit_breakers |}.

End RetryManagementApi.

Close Scope M_scope.

(** ** Invariants of the stores *)

(** Every row sits under its own id, ids stay below the row-id counter, and
    every id waiting in the asyncio queue has its row. *)
Definition table_wf (tq : TaskQueueState) : Prop :=
  (forall k t, table tq !! k = Some t -> Task.id t = k /\ k < next_id tq)
  /\ (forall k, k ∈ _queue tq -> is_Some (table tq !! k)).

(** No row has used up more retries than it is allowed. *)
Definition retry_bounded (tq : TaskQueueState) : Prop :=
  forall k t, table tq !! k = Some t -> Task.retry_count t <= Task.max_retries t.

(** A breaker that has left CLOSED has reached the threshold. *)
Definition tripped_wf (rh : RetryHandler) : Prop :=
  forall k b,
    circuit_breakers rh !! k = Some b ->
    state b <> closed -> failure_threshold rh <= failures b.


(** ** Further sample states *)

(** Task 1 waits alone in the in-memory queue. *)
Definition queued_world : World :=
  with_task_queue
    {| table := {[1 := pending_task]}; next_id := 2; _queue := [1];
       _tasks := {[pretty 1 := pending_task]} |}
    initial_world.


Definition envelope_42 : Envelope.t :=
  Envelope.mk 42 "text_processing" (PyDict "{}") (Some 1).

(** Task 1 is stored and queued on Redis while the breaker of its kind is open. *)
Definition tripped_world : World :=
  with_redis_queue
    {| redis_client := true; redis_list := [envelope_1]; processing := ∅ |}
    (with_retry_handler tripped_handler (world_with pending_task 2)).

(** ** Proof tactics *)

(** Projections of an updated world. *)
Ltac wsimpl :=
  cbn [settings clock task_queue redis_queue retry_handler dead_tasks
       execution_stats timers handler_calls tasks_processed
       with_clock with_task_queue with_redis_queue with_retry_handler
       with_dead_tasks with_execution_stats with_timers with_handler_calls
       with_tasks_processed total_executed successful failed retried
       bump_total_executed bump_successful bump_failed bump_retried
       redis_client redis_list processing fst snd] in *.


(** * Properties *)

(** ** Circuit breakers *)

Lemma ensure_breaker_lookup (k : string) (cbs : gmap string Breaker) :
  ensure_breaker k cbs !! k = Some (default fresh_breaker (cbs !! k)).
Proof.
  unfold ensure_breaker. destruct (cbs !! k) as [b|] eqn:E; simpl.
  - exact E.
  - apply lookup_insert_eq.
Qed.

Lemma ensure_breaker_lookup_ne (k k' : string) (cbs : gmap string Breaker) :
  k ≠ k' -> ensure_breaker k cbs !! k' = cbs !! k'.
Proof.
  intros Hne. unfold ensure_breaker. destruct (cbs !! k); [done|].
  by rewrite lookup_insert_ne.
Qed.

Lemma check_breaker_threshold now k rh :
  failure_threshold (_check_circuit_breaker now k rh).2 = failure_threshold rh
  /\ recovery_timeout (_check_circuit_breaker now k rh).2 = recovery_timeout rh.
Proof.
  unfold _check_circuit_breaker.
  destruct (state _); try destruct (_ && _); done.
Qed.

Lemma check_breaker_lookup now k rh :
  exists s,
    circuit_breakers (_check_circuit_breaker now k rh).2 !! k =
      Some {| failures := failures_of k rh;
              last_failure := last_failure (default fresh_breaker (circuit_breakers rh !! k));
              state := s |}
    /\ (s = state_of k rh \/ (state_of k rh = opened /\ s = half_open)).
Proof.
  unfold _check_circuit_breaker, failures_of, state_of.
  rewrite ensure_breaker_lookup. simpl.
  set (b := default fresh_breaker (circuit_breakers rh !! k)).
  destruct (state b) eqn:Es.
  - exists closed. simpl. rewrite ensure_breaker_lookup. fold b. split; [|by left].
    destruct b; simpl in *; by subst.
  - destruct (_ && _); simpl.
    + exists half_open. rewrite lookup_insert_eq. split; [done|by right].
    + exists opened. rewrite ensure_breaker_lookup. fold b. split; [|by left].
      destruct b; simpl in *; by subst.
  - exists half_open. simpl. rewrite ensure_breaker_lookup. fold b. split; [|by left].
    destruct b; simpl in *; by subst.
Qed.

Lemma check_breaker_lookup_ne now k k' rh :
  k ≠ k' ->
  circuit_breakers (_check_circuit_breaker now k rh).2 !! k' = circuit_breakers rh !! k'.
Proof.
  intros Hne. unfold _check_circuit_breaker.
  destruct (state _); try destruct (_ && _); simpl;
    rewrite ?lookup_insert_ne by done; by apply ensure_breaker_lookup_ne.
Qed.

Lemma record_failure_lookup now k rh :
  circuit_breakers (record_failure now k rh) !! k =
    Some {| failures := failures_of k rh + 1;
            last_failure := Some now;
            state := if (failure_threshold rh <=? failures_of k rh + 1)
                        && negb (bool_decide (state_of k rh = opened))
                     then opened else state_of k rh |}.
Proof.
  unfold record_failure, failures_of, state_of. simpl.
  rewrite lookup_insert_eq, ensure_breaker_lookup. done.
Qed.

Lemma record_failure_lookup_ne now k k' rh :
  k ≠ k' -> circuit_breakers (record_failure now k rh) !! k' = circuit_breakers rh !! k'.
Proof.
  intros Hne. unfold record_failure. simpl.
  rewrite lookup_insert_ne by done. by apply ensure_breaker_lookup_ne.
Qed.

Lemma record_success_lookup_ne k k' rh :
  k ≠ k' -> circuit_breakers (record_success k rh) !! k' = circuit_breakers rh !! k'.
Proof.
  intros Hne. unfold record_success.
  destruct (circuit_breakers rh !! k) as [b|]; [|done].
  destruct (state b); simpl; try done. by rewrite lookup_insert_ne.
Qed.

Lemma reset_lookup_ne k k' rh :
  k ≠ k' -> circuit_breakers (reset_circuit_breaker k rh) !! k' = circuit_breakers rh !! k'.
Proof.
  intros Hne. unfold reset_circuit_breaker.
  destruct (circuit_breakers rh !! k); simpl; [|done]. by rewrite lookup_insert_ne.
Qed.

Lemma apply_op_frame op k rh :
  op_kind op ≠ k -> circuit_breakers (apply_op op rh) !! k = circuit_breakers rh !! k.
Proof.
  destruct op; simpl; intros Hne.
  - by apply check_breaker_lookup_ne.
  - by apply record_success_lookup_ne.
  - by apply record_failure_lookup_ne.
  - by apply reset_lookup_ne.
Qed.

Lemma apply_op_threshold op rh :
  failure_threshold (apply_op op rh) = failure_threshold rh.
Proof.
  destruct op; simpl.
  - apply check_breaker_threshold.
  - unfold record_success. destruct (_ !! _) as [b|]; [|done]. by destruct (state b).
  - done.
  - unfold reset_circuit_breaker. by destruct (_ !! _).
Qed.

Lemma run_ops_snoc ops op rh :
  run_ops (ops ++ [op]) rh = apply_op op (run_ops ops rh).
Proof. unfold run_ops. by rewrite foldl_app. Qed.

Lemma run_ops_app ops1 ops2 rh :
  run_ops (ops1 ++ ops2) rh = run_ops ops2 (run_ops ops1 rh).
Proof. unfold run_ops. by rewrite foldl_app. Qed.

Lemma run_ops_threshold ops rh :
  failure_threshold (run_ops ops rh) = failure_threshold rh.
Proof.
  induction ops as [|op ops IH] using rev_ind; [done|].
  by rewrite run_ops_snoc, apply_op_threshold.
Qed.

Lemma apply_op_wf op rh : breakers_wf rh -> breakers_wf (apply_op op rh).
Proof.
  intros Hwf k b Hb.
  destruct (decide (op_kind op = k)) as [<-|Hne].
  2: { rewrite apply_op_frame in Hb by done. eauto. }
  assert (H0 : 0 <= failures_of (op_kind op) rh).
  { unfold failures_of. destruct (circuit_breakers rh !! op_kind op) eqn:E; simpl; [eauto|done]. }
  destruct op; cbn [apply_op op_kind] in *.
  - destruct (check_breaker_lookup now task_type rh) as (s & Hs & _).
    rewrite Hs in Hb. by inversion Hb.
  - unfold record_success in Hb.
    destruct (circuit_breakers rh !! task_type) as [b0|] eqn:E; [|by rewrite E in Hb].
    destruct (state b0); simpl in Hb; try (by eauto).
    rewrite lookup_insert_eq in Hb. by inversion Hb.
  - rewrite record_failure_lookup in Hb. inversion Hb; subst; simpl. lia.
  - unfold reset_circuit_breaker in Hb.
    destruct (circuit_breakers rh !! task_type) as [b0|] eqn:E; [|by rewrite E in Hb].
    simpl in Hb. rewrite lookup_insert_eq in Hb. by inversion Hb.
Qed.

Lemma run_ops_wf ops rh : breakers_wf rh -> breakers_wf (run_ops ops rh).
Proof.
  intros Hwf. induction ops as [|op ops IH] using rev_ind; [done|].
  rewrite run_ops_snoc. by apply apply_op_wf.
Qed.

Lemma init_wf : breakers_wf RetryHandler_init.
Proof. intros k b Hb. simpl in Hb. by rewrite lookup_empty in Hb. Qed.

(** Failures and checks only add to the counter. *)
Lemma apply_op_failures_no_success op k rh :
  no_success_of k op = true ->
  failures_of k (apply_op op rh) =
    failures_of k rh + (if is_failure_of k op then 1 else 0).
Proof.
  intros Hop. unfold failures_of at 1.
  destruct (decide (op_kind op = k)) as [Hk|Hne].
  - destruct op; cbn [apply_op op_kind is_failure_of no_success_of] in *; subst.
    + destruct (check_breaker_lookup now k rh) as (s & -> & _). simpl. lia.
    + rewrite bool_decide_eq_true_2 in Hop by done. discriminate Hop.
    + rewrite record_failure_lookup. simpl.
      rewrite (bool_decide_eq_true_2 (k = k)) by done. lia.
    + rewrite bool_decide_eq_true_2 in Hop by done. discriminate Hop.
  - rewrite apply_op_frame by done. fold (failures_of k rh).
    destruct op; cbn [is_failure_of op_kind] in *;
      rewrite ?bool_decide_eq_false_2 by done; lia.
Qed.

Lemma failures_in_snoc k ops op :
  failures_in k (ops ++ [op]) = failures_in k ops + (if is_failure_of k op then 1 else 0).
Proof.
  unfold failures_in. rewrite filter_app, length_app.
  rewrite filter_cons, filter_nil. 
  destruct (is_failure_of k op) eqn:E.
  - rewrite decide_True by done. simpl. lia.
  - rewrite decide_False by done. simpl. lia.
Qed.

Lemma run_ops_failures_no_success k ops rh :
  forallb (no_success_of k) ops = true ->
  failures_of k (run_ops ops rh) = failures_of k rh + failures_in k ops.
Proof.
  induction ops as [|op ops IH] using rev_ind; intros Hops.
  - unfold failures_in. simpl. lia.
  - rewrite forallb_app in Hops. apply andb_true_iff in Hops as [H1 H2].
    simpl in H2. rewrite andb_true_r in H2.
    rewrite run_ops_snoc, apply_op_failures_no_success, IH, failures_in_snoc by done.
    lia.
Qed.

Lemma run_ops_frame k ops rh :
  forallb (other_kind k) ops = true ->
  circuit_breakers (run_ops ops rh) !! k = circuit_breakers rh !! k.
Proof.
  induction ops as [|op ops IH] using rev_ind; intros Hops; [done|].
  rewrite forallb_app in Hops. apply andb_true_iff in Hops as [H1 H2].
  simpl in H2. rewrite andb_true_r in H2. unfold other_kind in H2.
  apply negb_true_iff, bool_decide_eq_false in H2.
  rewrite run_ops_snoc, apply_op_frame by done. auto.
Qed.

Lemma failures_of_nonneg k rh : breakers_wf rh -> 0 <= failures_of k rh.
Proof.
  intros Hwf. unfold failures_of.
  destruct (circuit_breakers rh !! k) eqn:E; simpl; [eauto|done].
Qed.

(** C5. After a run in which kind [k] sees at least [failure_threshold]
    (5 by default) [record_failure] calls with no [record_success] and no
    reset for [k] in between, possibly interleaved with breaker checks and
    with operations on other kinds, and once the last of these failures is
    recorded, the breaker of [k] is OPEN and [last_failure] holds the time of
    that last failure. *)
Theorem breaker_open_after_failure_burst (k : string) (rh : RetryHandler)
    (pre post : list BreakerOp) (t : Z) :
  breakers_wf rh ->
  forallb (no_success_of k) pre = true ->
  forallb (other_kind k) post = true ->
  failure_threshold rh <= failures_in k (pre ++ [OpFailure t k]) ->
  exists b,
    circuit_breakers (run_ops (pre ++ OpFailure t k :: post) rh) !! k = Some b
    /\ state b = opened /\ last_failure b = Some t.
Proof.
  intros Hwf Hpre Hpost Hn.
  replace (pre ++ OpFailure t k :: post) with ((pre ++ [OpFailure t k]) ++ post)
    by (by rewrite <- app_assoc).
  rewrite run_ops_app, run_ops_frame, run_ops_snoc by done.
  cbn [apply_op]. rewrite record_failure_lookup.
  eexists; split; [reflexivity|]. simpl. split; [|done].
  rewrite run_ops_threshold, run_ops_failures_no_success by done.
  rewrite failures_in_snoc in Hn. simpl in Hn.
  rewrite bool_decide_eq_true_2 in Hn by done.
  pose proof (failures_of_nonneg k rh Hwf) as H0.
  destruct (decide (state_of k (run_ops pre rh) = opened)) as [Ho|Ho].
  - rewrite bool_decide_eq_true_2 by done. rewrite andb_false_r. done.
  - rewrite bool_decide_eq_false_2 by done.
    replace (failure_threshold rh <=? _) with true by (symmetry; apply Z.leb_le; lia).
    done.
Qed.

Lemma state_of_frame op k rh :
  op_kind op ≠ k -> state_of k (apply_op op rh) = state_of k rh.
Proof. intros Hne. unfold state_of. by rewrite apply_op_frame. Qed.

Lemma failures_of_frame op k rh :
  op_kind op ≠ k -> failures_of k (apply_op op rh) = failures_of k rh.
Proof. intros Hne. unfold failures_of. by rewrite apply_op_frame. Qed.

Lemma record_success_not_half_open k rh :
  state_of k rh ≠ half_open -> record_success k rh = rh.
Proof.
  unfold state_of, record_success.
  destruct (circuit_breakers rh !! k) as [b|]; simpl; [|done].
  by destruct (state b).
Qed.

Lemma failures_of_record_failure now k rh :
  failures_of k (record_failure now k rh) = failures_of k rh + 1.
Proof. unfold failures_of at 1. by rewrite record_failure_lookup. Qed.

Lemma state_of_record_failure now k rh :
  state_of k (record_failure now k rh) =
    if (failure_threshold rh <=? failures_of k rh + 1)
       && negb (bool_decide (state_of k rh = opened))
    then opened else state_of k rh.
Proof. unfold state_of at 1. by rewrite record_failure_lookup. Qed.

(** One failure or success of kind [k] on a breaker that is not half-open. *)
Lemma apply_outcome_step op k rh :
  state_of k rh ≠ half_open ->
  only_outcomes_of k op = true ->
  state_of k (apply_op op rh) ≠ half_open
  /\ failures_of k (apply_op op rh) =
       failures_of k rh + (if is_failure_of k op then 1 else 0)
  /\ (if is_failure_of k op
      then failure_threshold rh <= failures_of k rh + 1 ->
           state_of k (apply_op op rh) = opened
      else state_of k (apply_op op rh) = state_of k rh).
Proof.
  intros Hs Hop.
  destruct (decide (op_kind op = k)) as [Hk|Hne].
  - destruct op; cbn [apply_op op_kind is_failure_of only_outcomes_of] in *; subst.
    + rewrite bool_decide_eq_true_2 in Hop by done. discriminate Hop.
    + rewrite record_success_not_half_open by done. repeat split; [done|lia].
    + rewrite (bool_decide_eq_true_2 (k = k)) by done.
      rewrite failures_of_record_failure, state_of_record_failure.
      destruct (decide (state_of k rh = opened)) as [Ho|Ho].
      * rewrite (bool_decide_eq_true_2 _ Ho), andb_false_r. rewrite Ho. done.
      * rewrite (bool_decide_eq_false_2 _ Ho), andb_true_r.
        repeat split.
        -- by destruct (_ <=? _).
        -- intros Hle. apply Z.leb_le in Hle. by rewrite Hle.
    + rewrite bool_decide_eq_true_2 in Hop by done. discriminate Hop.
  - rewrite state_of_frame, failures_of_frame by done.
    assert (is_failure_of k op = false) as ->.
    { destruct op; simpl in *; try done. by apply bool_decide_eq_false_2. }
    repeat split; [done|lia].
Qed.

Lemma run_outcomes k ops rh :
  state_of k rh ≠ half_open ->
  forallb (only_outcomes_of k) ops = true ->
  state_of k (run_ops ops rh) ≠ half_open
  /\ failures_of k (run_ops ops rh) = failures_of k rh + failures_in k ops
  /\ (0 < failures_in k ops ->
      failure_threshold rh <= failures_of k rh + failures_in k ops ->
      state_of k (run_ops ops rh) = opened).
Proof.
  intros Hs. induction ops as [|op ops IH] using rev_ind; intros Hops.
  - unfold failures_in. simpl. repeat split; [done|lia|lia].
  - rewrite forallb_app in Hops. apply andb_true_iff in Hops as [H1 H2].
    simpl in H2. rewrite andb_true_r in H2.
    destruct (IH H1) as (IHs & IHf & IHo).
    destruct (apply_outcome_step op k (run_ops ops rh) IHs H2) as (Hs' & Hf' & Ho').
    rewrite run_ops_snoc, failures_in_snoc. rewrite run_ops_threshold in Ho'.
    split; [done|]. split; [lia|].
    intros Hpos Hle. destruct (is_failure_of k op).
    + apply Ho'. lia.
    + rewrite Ho'. apply IHo; lia.
Qed.

(** C9. On a breaker that is CLOSED (or not yet created) [record_success]
    changes nothing, so the counter is not reset; a non-zero counter becomes
    zero only by a manual reset or by a success in HALF_OPEN; and in a run of
    failures and successes the counter grows by the number of failures,
    opening the breaker as soon as the threshold is met. *)
Theorem success_in_closed_keeps_failures (k : string) (rh : RetryHandler) :
  breakers_wf rh ->
  (state_of k rh = closed -> record_success k rh = rh)
  /\ (forall op,
        failures_of k rh <> 0 -> failures_of k (apply_op op rh) = 0 ->
        op = OpReset k \/ (op = OpSuccess k /\ state_of k rh = half_open))
  /\ (forall ops,
        state_of k rh <> half_open ->
        forallb (only_outcomes_of k) ops = true ->
        failures_of k (run_ops ops rh) = failures_of k rh + failures_in k ops
        /\ (0 < failures_in k ops ->
            failure_threshold rh <= failures_of k rh + failures_in k ops ->
            state_of k (run_ops ops rh) = opened)).
Proof.
  intros Hwf. split; [|split].
  - intros Hc. apply record_success_not_half_open. by rewrite Hc.
  - intros op Hnz Hz.
    destruct (decide (op_kind op = k)) as [Hk|Hne].
    2: { rewrite failures_of_frame in Hz by done. done. }
    pose proof (failures_of_nonneg k rh Hwf) as H0.
    destruct op; cbn [apply_op op_kind] in *; subst.
    + unfold failures_of at 1 in Hz.
      destruct (check_breaker_lookup now k rh) as (s & Hl & _).
      rewrite Hl in Hz. simpl in Hz. done.
    + right. split; [done|].
      destruct (decide (state_of k rh = half_open)) as [|Hs]; [done|].
      rewrite record_success_not_half_open in Hz by done. done.
    + rewrite failures_of_record_failure in Hz. lia.
    + by left.
  - intros ops Hs Hops. by destruct (run_outcomes k ops rh Hs Hops) as (_ & ? & ?).
Qed.

(** C6 (as the code behaves). For an OPEN breaker whose [last_failure] is set
    (and non-zero), once the current time minus [last_failure] exceeds
    [recovery_timeout] the next check moves it to HALF_OPEN and answers true;
    while it stays HALF_OPEN every further check answers true as well and
    leaves the registry as it is; a following [record_success] closes the
    breaker with [failures = 0]. *)
Theorem half_open_after_recovery_timeout (rh : RetryHandler) (k : string)
    (b : Breaker) (t now : Z) :
  circuit_breakers rh !! k = Some b ->
  state b = opened ->
  last_failure b = Some t ->
  t <> 0 ->
  recovery_timeout rh < now - t ->
  (_check_circuit_breaker now k rh).1 = true
  /\ circuit_breakers (_check_circuit_breaker now k rh).2 !! k =
       Some {| failures := failures b; last_failure := Some t; state := half_open |}
  /\ (forall now',
        _check_circuit_breaker now' k (_check_circuit_breaker now k rh).2 =
          (true, (_check_circuit_breaker now k rh).2))
  /\ circuit_breakers (record_success k (_check_circuit_breaker now k rh).2) !! k =
       Some {| failures := 0; last_failure := Some t; state := closed |}.
Proof.
  intros Hb Hs Ht Hnz Hlt.
  assert (Hc : _check_circuit_breaker now k rh =
               (true, with_breakers
                        (<[k := {| failures := failures b; last_failure := Some t;
                                   state := half_open |}]> (circuit_breakers rh)) rh)).
  { unfold _check_circuit_breaker, ensure_breaker. rewrite Hb. simpl. rewrite Hb. simpl.
    rewrite Hs, Ht. simpl.
    replace (t =? 0) with false by (symmetry; apply Z.eqb_neq; done).
    replace (recovery_timeout rh <? now - t) with true by (symmetry; apply Z.ltb_lt; done).
    done. }
  rewrite Hc. simpl. split; [done|]. split; [by rewrite lookup_insert_eq|]. split.
  - intros now'. unfold _check_circuit_breaker, ensure_breaker. simpl.
    rewrite lookup_insert_eq. simpl. rewrite lookup_insert_eq. simpl.
    unfold with_breakers. simpl. done.
  - unfold record_success. simpl. rewrite lookup_insert_eq. simpl.
    by rewrite lookup_insert_eq.
Qed.

(** ** Retry delays *)






(** [draw_0_15] is a binary64 number: the conversion leaves it as it is. *)
Lemma draw_0_15_is_binary64 :
  float_of_Q draw_0_15 = S754_finite false 5404319552844595 (-55)
  /\ (draw_0_15 == inject_Z 5404319552844595 / inject_Z (2 ^ 55))%Q.
Proof. split; [vm_compute; reflexivity|reflexivity]. Qed.



(** ** Task store *)

Lemma update_task_status_found w task_id task status result error_message :
  table (task_queue w) !! task_id = Some task ->
  TaskQueue.update_task_status task_id status result error_message w =
    (inr (TaskQueue.updated_row (clock w) status result error_message task),
     with_task_queue
       (TaskQueue.store_row (TaskQueue.updated_row (clock w) status result error_message task)
          (task_queue w)) w).
Proof.
  intros Hrow. unfold TaskQueue.update_task_status, bind, get. simpl.
  by rewrite Hrow.
Qed.

Lemma update_task_status_missing w task_id status result error_message :
  table (task_queue w) !! task_id = None ->
  TaskQueue.update_task_status task_id status result error_message w =
    (inl (PyExn "ValueError" ("Task " +:+ pretty task_id +:+ " not found")), w).
Proof.
  intros Hrow. unfold TaskQueue.update_task_status, bind, get. simpl.
  by rewrite Hrow.
Qed.

(** C4, counterexample: PENDING -> COMPLETED is not in the DAG, yet the update
    of pending task 1 to COMPLETED is accepted. *)
Lemma pending_to_completed_accepted : ~ rejects_illegal_transitions.
Proof.
  intros Hclaim.
  destruct (Hclaim (world_with pending_task 2) 1 pending_task COMPLETED None None)
    as [msg Hmsg]; [reflexivity|reflexivity|discriminate|].
  vm_compute in Hmsg. discriminate Hmsg.
Qed.

Lemma updated_row_id now s r m task : Task.id (TaskQueue.updated_row now s r m task) = Task.id task.
Proof.
  unfold TaskQueue.updated_row. destruct r, m; repeat case_match; done.
Qed.

Lemma updated_row_status now s r m task : Task.status (TaskQueue.updated_row now s r m task) = s.
Proof.
  unfold TaskQueue.updated_row. destruct r, m; repeat case_match; done.
Qed.

Lemma updated_row_twice now now' s r m task :
  TaskQueue.updated_row now' s r m (TaskQueue.updated_row now s r m task) =
    if bool_decide (s ∈ [COMPLETED; FAILED])
    then Task.with_completed_at (Some now') (TaskQueue.updated_row now s r m task)
    else TaskQueue.updated_row now s r m task.
Proof.
  unfold TaskQueue.updated_row. destruct task, s, r, m; simpl; try done;
    destruct started_at; done.
Qed.

(** C4 (as the code behaves). [update_task_status] checks no transition: for
    every stored task and every requested status the update is applied and
    the updated record returned, the only error being ValueError for an id
    that is not stored.  Repeating the identical update leaves the record
    unchanged for PENDING, RUNNING and RETRYING; for COMPLETED and FAILED the
    repeat changes [completed_at] alone, to the time of the repeat. *)
Theorem update_task_status_accepts_any_status (w : World) (task_id : Z)
    (task : Task.t) (status : TaskStatus) (result error_message : option string) :
  table (task_queue w) !! task_id = Some task ->
  Task.id task = task_id ->
  (forall w0, table (task_queue w0) !! task_id = None ->
     exists msg,
       TaskQueue.update_task_status task_id status result error_message w0 =
         (inl (PyExn "ValueError" msg), w0))
  /\ exists task' w',
       TaskQueue.update_task_status task_id status result error_message w =
         (inr task', w')
       /\ Task.status task' = status
       /\ table (task_queue w') !! task_id = Some task'
       /\ forall now',
            (TaskQueue.update_task_status task_id status result error_message
               (with_clock now' w')).1 =
              inr (if bool_decide (status ∈ [COMPLETED; FAILED])
                   then Task.with_completed_at (Some now') task'
                   else task').
Proof.
  intros Hrow Hid. split.
  { intros w0 Hnone. eexists. by apply update_task_status_missing. }
  rewrite (update_task_status_found w task_id task) by done.
  eexists _, _. split; [reflexivity|].
  split; [apply updated_row_status|].
  assert (Hrow' :
    table (TaskQueue.store_row
             (TaskQueue.updated_row (clock w) status result error_message task)
             (task_queue w)) !! task_id =
      Some (TaskQueue.updated_row (clock w) status result error_message task)).
  { simpl. rewrite updated_row_id, Hid. apply lookup_insert_eq. }
  split; [exact Hrow'|].
  intros now'.
  erewrite update_task_status_found by exact Hrow'. simpl.
  by rewrite updated_row_twice.
Qed.

(** ** The worker and the executor *)

Lemma dispatch_recognized (run : HandlerRun) (task : Task.t) :
  Task.task_type task ∈ TasksApi.valid_task_types ->
  (if bool_decide (Task.task_type task = "text_processing")
   then EnhancedTaskExecutor._process_text_with_errors run task
   else if bool_decide (Task.task_type task = "ai_summarization")
   then EnhancedTaskExecutor._ai_summarize_with_errors run task
   else if bool_decide (Task.task_type task = "batch_processing")
   then EnhancedTaskExecutor._batch_process_with_errors run task
   else if bool_decide (Task.task_type task = "image_processing")
   then EnhancedTaskExecutor._process_image_with_errors run task
   else raise (PyExn "ValueError" ("Unknown task type: " +:+ Task.task_type task)))
  = EnhancedTaskExecutor.handler run task.
Proof.
  intros H. repeat case_bool_decide; try done.
  exfalso. apply list_elem_of_In in H. simpl in H. intuition congruence.
Qed.


(** The row is stored under its own id after the RUNNING update. *)
Lemma running_row_stored w task :
  table (TaskQueue.store_row (TaskQueue.updated_row (clock w) RUNNING None None task)
           (task_queue w)) !! Task.id task =
    Some (TaskQueue.updated_row (clock w) RUNNING None None task).
Proof. simpl. rewrite updated_row_id. apply lookup_insert_eq. Qed.


Lemma process_task_unknown_id (w : World) (env : Envelope.t) (run : HandlerRun) (u : Q) :
  table (task_queue w) !! Envelope.id env = None ->
  EnhancedWorker._process_task run u env w = (inr tt, w).
Proof.
  intros Hrow. unfold EnhancedWorker._process_task, try_except, bind, TaskQueue.get_task,
    bind, get, ret. simpl. by rewrite Hrow.
Qed.

(** ** Retries, requeues and the submit route *)

Lemma updated_row_retry_count now s r m task :
  Task.retry_count (TaskQueue.updated_row now s r m task) = Task.retry_count task.
Proof. unfold TaskQueue.updated_row. destruct r, m; repeat case_match; done. Qed.

(** [_schedule_retry] writes RETRYING but the stored retry count stays as it
    was: the increment lands on the object the timer keeps. *)
Lemma schedule_retry_stored_row (w : World) (task : Task.t) (delay : Z) :
  table (task_queue w) !! Task.id task = Some task ->
  exists row,
    table (task_queue (EnhancedTaskExecutor._schedule_retry task delay w).2)
      !! Task.id task = Some row
    /\ Task.status row = RETRYING
    /\ Task.retry_count row = Task.retry_count task
    /\ timers (EnhancedTaskExecutor._schedule_retry task delay w).2 =
         timers w ++ [(Task.with_retry_count (Task.retry_count task + 1) task, delay)].
Proof.
  intros Hrow.
  remember (EnhancedTaskExecutor._schedule_retry task delay w) as r eqn:Hr.
  unfold EnhancedTaskExecutor._schedule_retry in Hr. unfold bind at 1 in Hr.
  rewrite (update_task_status_found _ _ task) in Hr by done.
  unfold modify in Hr. subst r. wsimpl.
  eexists. split; [|split; [|split]].
  - cbn [TaskQueue.store_row table]. rewrite updated_row_id. apply lookup_insert_eq.
  - apply updated_row_status.
  - apply updated_row_retry_count.
  - done.
Qed.

(** The requeue after the delay inserts a new row and pushes its id. *)
Lemma retry_after_delay_new_row (w : World) (task : Task.t) (delay : Z) :
  redis_client (redis_queue w) = true ->
  exists env,
    redis_list (redis_queue (EnhancedTaskExecutor._retry_after_delay task delay w).2) =
      env :: redis_list (redis_queue w)
    /\ Envelope.id env = next_id (task_queue w)
    /\ forall k, k <> next_id (task_queue w) ->
         table (task_queue (EnhancedTaskExecutor._retry_after_delay task delay w).2) !! k =
           table (task_queue w) !! k.
Proof.
  intros Hrc.
  remember (EnhancedTaskExecutor._retry_after_delay task delay w) as r eqn:Hr.
  unfold EnhancedTaskExecutor._retry_after_delay in Hr.
  unfold RedisTaskQueue.create_task, TaskQueue.create_task, RedisTaskQueue.lpush in Hr.
  unfold try_except, bind, get, modify, ret, raise in Hr. wsimpl.
  rewrite Hrc in Hr. subst r. wsimpl.
  eexists. split; [reflexivity|]. split; [done|].
  intros k Hk. cbn [table Task.id]. by rewrite lookup_insert_ne.
Qed.

Lemma create_task_unrecognized (w : World) (kind : string) (payload : pyobj) :
  kind ∉ TasksApi.valid_task_types ->
  TasksApi.create_task kind payload w =
    (inl (HTTPException 500 (str (HTTPException 400 TasksApi.invalid_detail))), w).
Proof.
  intros Hk. unfold TasksApi.create_task, try_except, bind.
  rewrite bool_decide_eq_false_2 by done. done.
Qed.

Lemma create_task_recognized (w : World) (kind : string) (payload : pyobj) :
  kind ∈ TasksApi.valid_task_types ->
  redis_client (redis_queue w) = true ->
  exists task,
    (TasksApi.create_task kind payload w).1 = inr task
    /\ Task.id task = next_id (task_queue w)
    /\ Task.task_type task = kind
    /\ Task.status task = PENDING
    /\ Task.retry_count task = 0
    /\ table (task_queue (TasksApi.create_task kind payload w).2) !! Task.id task =
         Some task.
Proof.
  intros Hk Hrc.
  remember (TasksApi.create_task kind payload w) as r eqn:Hr.
  unfold TasksApi.create_task, try_except, bind in Hr.
  rewrite bool_decide_eq_true_2 in Hr by done.
  unfold RedisTaskQueue.create_task, TaskQueue.create_task, RedisTaskQueue.lpush in Hr.
  unfold bind, get, modify, ret, raise in Hr. wsimpl.
  rewrite Hrc in Hr. subst r. wsimpl.
  eexists. split; [reflexivity|]. repeat split.
  cbn [table Task.id]. apply lookup_insert_eq.
Qed.

(** What a successful requeue leaves behind. *)
Lemma retry_dead_letter_present (w : World) (task_id : Z) (dead_task : DeadLetter.t)
    (task : Task.t) :
  dead_tasks w !! task_id = Some dead_task ->
  table (task_queue w) !! task_id = Some task ->
  Task.id task = task_id ->
  task_id <> next_id (task_queue w) ->
  redis_client (redis_queue w) = true ->
  (DeadLetterQueue.retry_dead_letter task_id w).1 = inr true
  /\ dead_tasks (DeadLetterQueue.retry_dead_letter task_id w).2 =
       delete task_id (dead_tasks w)
  /\ table (task_queue (DeadLetterQueue.retry_dead_letter task_id w).2) !! task_id =
       Some (TaskQueue.updated_row (clock w) PENDING None None task)
  /\ exists env,
       redis_list (redis_queue (DeadLetterQueue.retry_dead_letter task_id w).2) =
         env :: redis_list (redis_queue w)
       /\ Envelope.id env = next_id (task_queue w).
Proof.
  intros Hdead Hrow Hid Hfresh Hrc.
  remember (DeadLetterQueue.retry_dead_letter task_id w) as r eqn:Hr.
  unfold DeadLetterQueue.retry_dead_letter in Hr.
  unfold bind at 1, get at 1 in Hr. rewrite Hdead in Hr.
  unfold try_except, bind at 1, TaskQueue.get_task, bind at 1, get, ret in Hr.
  rewrite Hrow in Hr.
  unfold bind at 1 in Hr. rewrite (update_task_status_found _ _ task) in Hr by done.
  unfold bind at 1 in Hr.
  unfold RedisTaskQueue.create_task, TaskQueue.create_task, RedisTaskQueue.lpush in Hr.
  unfold bind, get, modify, ret, raise in Hr. wsimpl.
  rewrite Hrc in Hr. subst r. wsimpl.
  split; [done|]. split; [done|]. split.
  - cbn [table TaskQueue.store_row next_id Task.id].
    rewrite lookup_insert_ne by done.
    rewrite updated_row_id, Hid. apply lookup_insert_eq.
  - eexists. split; [reflexivity|]. done.
Qed.

Lemma retry_dead_letter_absent (w : World) (task_id : Z) :
  dead_tasks w !! task_id = None ->
  DeadLetterQueue.retry_dead_letter task_id w = (inr false, w).
Proof.
  intros Hdead. unfold DeadLetterQueue.retry_dead_letter, bind, get.
  by rewrite Hdead.
Qed.


(** C6, counterexample: with the timeout elapsed, the check at 161 and the
    check at 162 are both granted, no outcome having been recorded between. *)
Lemma second_probe_granted : ~ half_open_single_probe.
Proof.
  intros Hclaim.
  destruct (Hclaim tripped_handler "text_processing"
              {| failures := 5; last_failure := Some 100; state := opened |}
              100 161 162) as (_ & Hsecond).
  - reflexivity.
  - reflexivity.
  - reflexivity.
  - discriminate.
  - vm_compute. reflexivity.
  - vm_compute in Hsecond. discriminate Hsecond.
Qed.

(** C2, at a failing input.  Task 1 fails with TimeoutError and is judged
    retryable: the stored row becomes RETRYING but its retry count stays 0
    (the increment is on the object held by the timer), and when the timer
    fires the envelope pushed carries the id 2 of a newly inserted row. *)
Theorem retry_keeps_stored_retry_count_and_enqueues_new_id :
  Task.status <$>
    table (task_queue
      (EnhancedWorker._process_task timeout_run (1 # 5)%Q envelope_1
         (world_with pending_task 2)).2) !! 1 = Some RETRYING
  /\ Task.retry_count <$>
       table (task_queue
         (EnhancedWorker._process_task timeout_run (1 # 5)%Q envelope_1
            (world_with pending_task 2)).2) !! 1 = Some 0
  /\ timers (EnhancedWorker._process_task timeout_run (1 # 5)%Q envelope_1
               (world_with pending_task 2)).2 =
       [(Task.with_retry_count 1 pending_task, 5)]
  /\ Envelope.id <$>
       redis_list (redis_queue
         (EnhancedTaskExecutor._retry_after_delay
            (Task.with_retry_count 1 pending_task) 5
            (EnhancedWorker._process_task timeout_run (1 # 5)%Q envelope_1
               (world_with pending_task 2)).2).2) = [2]
  /\ Task.retry_count <$>
       table (task_queue
         (EnhancedTaskExecutor._retry_after_delay
            (Task.with_retry_count 1 pending_task) 5
            (EnhancedWorker._process_task timeout_run (1 # 5)%Q envelope_1
               (world_with pending_task 2)).2).2) !! 1 = Some 0
  /\ Task.retry_count <$>
       table (task_queue
         (EnhancedTaskExecutor._retry_after_delay
            (Task.with_retry_count 1 pending_task) 5
            (EnhancedWorker._process_task timeout_run (1 # 5)%Q envelope_1
               (world_with pending_task 2)).2).2) !! 2 = Some 0.
Proof. vm_compute. repeat split; reflexivity. Qed.

(** C3, at a failing input.  Requeueing dead letter 42 (stored retry count 3)
    answers true, sets the stored status to PENDING and removes the entry,
    but the stored retry count stays 3 and the envelope pushed carries the id
    43 of a newly inserted row; an id without entry answers false. *)
Theorem requeue_keeps_stored_retry_count_and_enqueues_new_id :
  (DeadLetterQueue.retry_dead_letter 42 dead_letter_world).1 = inr true
  /\ Task.status <$>
       table (task_queue (DeadLetterQueue.retry_dead_letter 42 dead_letter_world).2)
         !! 42 = Some PENDING
  /\ Task.retry_count <$>
       table (task_queue (DeadLetterQueue.retry_dead_letter 42 dead_letter_world).2)
         !! 42 = Some 3
  /\ Envelope.id <$>
       redis_list (redis_queue (DeadLetterQueue.retry_dead_letter 42 dead_letter_world).2)
       = [43]
  /\ Task.retry_count <$>
       table (task_queue (DeadLetterQueue.retry_dead_letter 42 dead_letter_world).2)
         !! 43 = Some 0
  /\ dead_tasks (DeadLetterQueue.retry_dead_letter 42 dead_letter_world).2 !! 42 = None
  /\ (DeadLetterQueue.retry_dead_letter 7 dead_letter_world).1 = inr false.
Proof. vm_compute. repeat split; reflexivity. Qed.

(** C8, at a failing input.  Submitting kind "invalid_type" is answered with
    status 500: the HTTPException(400) raised inside the try block is caught
    by its own [except Exception] and wrapped.  A recognized kind is answered
    201, and the lookup route, which re-raises HTTPException first, answers
    404 as it raises it. *)
Theorem unrecognized_kind_answers_500 :
  TasksApi.response_status 201
    (TasksApi.create_task "invalid_type" (PyDict "{}") initial_world).1 = 500
  /\ TasksApi.response_status 201
       (TasksApi.create_task "text_processing" (PyDict "{}") initial_world).1 = 201
  /\ TasksApi.response_status 200 (TasksApi.get_task 7 initial_world).1 = 404.
Proof. vm_compute. repeat split; reflexivity. Qed.

(** ** Dead letters *)

Lemma dlq_wf_empty : dlq_wf ∅.
Proof. intros k e H. by rewrite lookup_empty in H. Qed.

Lemma dlq_wf_add now task e dead :
  dlq_wf dead -> dlq_wf (add_dead_letter now task e dead).
Proof.
  intros Hwf k x. unfold add_dead_letter.
  destruct (decide (Task.id task = k)) as [<-|Hne].
  - rewrite lookup_insert_eq. by intros [= <-].
  - rewrite lookup_insert_ne by done. apply Hwf.
Qed.

Lemma dlq_wf_delete k dead : dlq_wf dead -> dlq_wf (delete k dead).
Proof.
  intros Hwf j x Hj. apply lookup_delete_Some in Hj as [_ Hj]. by apply Hwf.
Qed.

Lemma dlq_wf_purge now kind hours dead :
  dlq_wf dead -> dlq_wf (purge_dead_letters now kind hours dead).2.
Proof.
  intros Hwf k x. unfold purge_dead_letters. cbn [snd].
  rewrite lookup_foldr_delete_Some. intros [_ Hk]. by apply Hwf.
Qed.

(** What [retry_dead_letter] leaves in the dead-letter dict. *)
Lemma retry_dead_letter_dead_tasks task_id w :
  dead_tasks (DeadLetterQueue.retry_dead_letter task_id w).2 = dead_tasks w
  \/ dead_tasks (DeadLetterQueue.retry_dead_letter task_id w).2 =
       delete task_id (dead_tasks w).
Proof.
  remember (DeadLetterQueue.retry_dead_letter task_id w) as r eqn:Hr.
  unfold DeadLetterQueue.retry_dead_letter in Hr.
  unfold bind at 1, get at 1 in Hr.
  destruct (dead_tasks w !! task_id) as [dead_task|]; [|subst r; by left].
  unfold try_except, bind at 1, TaskQueue.get_task, bind at 1, get, ret in Hr.
  destruct (table (task_queue w) !! task_id) as [task|] eqn:Hrow; [|subst r; by left].
  unfold bind at 1 in Hr. rewrite (update_task_status_found _ _ task) in Hr by done.
  unfold bind at 1 in Hr.
  unfold RedisTaskQueue.create_task, TaskQueue.create_task, RedisTaskQueue.lpush in Hr.
  unfold bind, get, modify, ret, raise in Hr. wsimpl.
  destruct (redis_client (redis_queue w)); wsimpl; subst r; wsimpl; [by right|by left].
Qed.

(** C10. The dead-letter dict holds at most one entry per task id and every
    entry is filed under its own [task_id]; adding a task whose id is present
    replaces the old snapshot and touches no other key; adding, purging and
    requeueing keep the invariant. *)
Theorem dlq_one_entry_per_task (dead : gmap Z DeadLetter.t) :
  dlq_wf dead ->
  (forall k1 k2 e1 e2,
      dead !! k1 = Some e1 -> dead !! k2 = Some e2 ->
      DeadLetter.task_id e1 = DeadLetter.task_id e2 -> k1 = k2 /\ e1 = e2)
  /\ (forall now task e,
        add_dead_letter now task e dead !! Task.id task =
          Some (dead_letter_of now task e)
        /\ (forall k, k <> Task.id task ->
              add_dead_letter now task e dead !! k = dead !! k)
        /\ dlq_wf (add_dead_letter now task e dead))
  /\ (forall now kind hours, dlq_wf (purge_dead_letters now kind hours dead).2)
  /\ (forall w task_id,
        dead_tasks w = dead ->
        dlq_wf (dead_tasks (DeadLetterQueue.retry_dead_letter task_id w).2)).
Proof.
  intros Hwf. repeat split.
  - apply Hwf in H, H0. congruence.
  - apply Hwf in H as H', H0 as H0'. assert (k1 = k2) as -> by congruence. congruence.
  - apply lookup_insert_eq.
  - intros k Hk. unfold add_dead_letter. by rewrite lookup_insert_ne.
  - by apply dlq_wf_add.
  - intros. by apply dlq_wf_purge.
  - intros w task_id <-.
    destruct (retry_dead_letter_dead_tasks task_id w) as [-> | ->];
      [done|by apply dlq_wf_delete].
Qed.

(** ** Instances at concrete inputs *)

Lemma breaker_open_after_failure_burst_witness :
  breakers_wf RetryHandler_init
  /\ exists b,
       circuit_breakers
         (run_ops ([OpFailure 10 "k"; OpFailure 11 "k"; OpCheck 12 "k";
                    OpFailure 13 "k"; OpSuccess "other"; OpFailure 14 "k"]
                   ++ OpFailure 15 "k" :: [OpFailure 16 "other"])
            RetryHandler_init) !! "k" = Some b
       /\ state b = opened /\ last_failure b = Some 15.
Proof.
  split; [apply init_wf|].
  apply (breaker_open_after_failure_burst "k" RetryHandler_init
           [OpFailure 10 "k"; OpFailure 11 "k"; OpCheck 12 "k";
            OpFailure 13 "k"; OpSuccess "other"; OpFailure 14 "k"]
           [OpFailure 16 "other"] 15).
  - apply init_wf.
  - reflexivity.
  - reflexivity.
  - vm_compute. discriminate.
Defined.

Lemma success_in_closed_keeps_failures_witness :
  breakers_wf counting_registry
  /\ circuit_breakers counting_registry !! "k" =
       Some {| failures := 2; last_failure := Some 20; state := closed |}
  /\ record_success "k" counting_registry = counting_registry
  /\ failures_of "k"
       (run_ops [OpSuccess "k"; OpFailure 30 "k"; OpSuccess "k"; OpFailure 40 "k";
                 OpFailure 50 "k"] counting_registry) = 5
  /\ state_of "k"
       (run_ops [OpSuccess "k"; OpFailure 30 "k"; OpSuccess "k"; OpFailure 40 "k";
                 OpFailure 50 "k"] counting_registry) = opened.
Proof.
  assert (Hwf : breakers_wf counting_registry) by (apply run_ops_wf, init_wf).
  destruct (success_in_closed_keeps_failures "k" counting_registry Hwf)
    as (Hclosed & _ & Hruns).
  split; [exact Hwf|]. split; [reflexivity|].
  split; [apply Hclosed; reflexivity|].
  destruct (Hruns [OpSuccess "k"; OpFailure 30 "k"; OpSuccess "k"; OpFailure 40 "k";
                   OpFailure 50 "k"]) as [Hcount Hopen].
  - vm_compute. discriminate.
  - reflexivity.
  - split.
    + rewrite Hcount. reflexivity.
    + apply Hopen; [reflexivity|]. vm_compute. discriminate.
Defined.

Lemma half_open_after_recovery_timeout_witness :
  recovery_timeout tripped_handler < 161 - 100
  /\ (_check_circuit_breaker 161 "text_processing" tripped_handler).1 = true.
Proof.
  split; [reflexivity|].
  refine (proj1 (half_open_after_recovery_timeout tripped_handler "text_processing"
                   {| failures := 5; last_failure := Some 100; state := opened |}
                   100 161 _ _ _ _ _)).
  - reflexivity.
  - reflexivity.
  - reflexivity.
  - discriminate.
  - reflexivity.
Defined.


Lemma update_task_status_accepts_any_status_witness :
  table (task_queue (world_with pending_task 2)) !! 1 = Some pending_task
  /\ exists task' w',
       TaskQueue.update_task_status 1 COMPLETED (Some "r") None
         (world_with pending_task 2) = (inr task', w')
       /\ Task.status task' = COMPLETED.
Proof.
  split; [reflexivity|].
  destruct (update_task_status_accepts_any_status (world_with pending_task 2) 1
              pending_task COMPLETED (Some "r") None)
    as (_ & task' & w' & Hrun & Hstatus & _).
  - reflexivity.
  - reflexivity.
  - exists task', w'. split; [exact Hrun|exact Hstatus].
Defined.


Lemma dlq_one_entry_per_task_witness :
  dlq_wf (dead_tasks dead_letter_world)
  /\ dlq_wf (purge_dead_letters 100000 None 24 (dead_tasks dead_letter_world)).2.
Proof.
  assert (Hwf : dlq_wf (dead_tasks dead_letter_world)).
  { intros k e. simpl. intros H. apply lookup_singleton_Some in H as [<- <-]. reflexivity. }
  split; [exact Hwf|].
  destruct (dlq_one_entry_per_task (dead_tasks dead_letter_world) Hwf)
    as (_ & _ & Hpurge & _).
  apply Hpurge.
Defined.

(** * Further properties of the code *)

(** ** Dead letters: purge and listing *)

Lemma size_foldr_delete (m : gmap Z DeadLetter.t) (js : list Z) :
  NoDup js -> (forall j, j ∈ js -> is_Some (m !! j)) ->
  (size (foldr delete m js) + length js = size m)%nat.
Proof.
  induction 1 as [|j js Hj Hnd IH]; intros Hin; simpl; [lia|].
  rewrite map_size_delete_Some.
  - assert (size (foldr delete m js) <> 0%nat).
    { apply map_size_ne_0_lookup. exists j.
      rewrite lookup_foldr_delete_not_elem_of by done. apply Hin. left. }
    rewrite <- IH by (intros; apply Hin; by right). lia.
  - rewrite lookup_foldr_delete_not_elem_of by done. apply Hin. left.
Qed.

(** The ids the first loop of [purge_dead_letters] collects. *)
Lemma purge_to_remove_elem (cutoff : Z) (kind : option string)
    (dead : gmap Z DeadLetter.t) (k : Z) :
  k ∈ (filter (fun kv => purge_selects cutoff kind kv.2 = true) (map_to_list dead)).*1
  <-> exists e, dead !! k = Some e /\ purge_selects cutoff kind e = true.
Proof.
  rewrite list_elem_of_fmap. split.
  - intros ([k' e] & -> & Hin). apply list_elem_of_filter in Hin as [Hsel Hin].
    apply elem_of_map_to_list in Hin. eauto.
  - intros (e & Hk & Hsel). exists (k, e). split; [done|].
    apply list_elem_of_filter. split; [done|]. by apply elem_of_map_to_list.
Qed.

(** The test of the purge, spelled out: an entry is kept when it did not fail
    before the cutoff, or when a kind is asked for and the entry is of another. *)
Lemma purge_selects_false (cutoff : Z) (kind : option string) (e : DeadLetter.t) :
  purge_selects cutoff kind e = false
  <-> cutoff <= DeadLetter.failed_at e
      \/ exists s, kind = Some s /\ s <> "" /\ DeadLetter.task_type e <> s.
Proof.
  unfold purge_selects, truthy_str. destruct kind as [s|]; simpl.
  - destruct (decide (s = "")) as [->|Hs].
    + rewrite bool_decide_eq_true_2 by done. simpl. rewrite Z.ltb_ge. split.
      * by left.
      * intros [H|(s & [= <-] & Hs & _)]; done.
    + rewrite (bool_decide_eq_false_2 (s = "")) by done. simpl.
      destruct (decide (DeadLetter.task_type e = s)) as [He|He].
      * rewrite bool_decide_eq_true_2 by congruence. simpl. rewrite Z.ltb_ge. split.
        -- by left.
        -- intros [H|(s' & [= <-] & _ & Hne)]; done.
      * rewrite bool_decide_eq_false_2 by congruence. simpl. split; [|done].
        intros _. right. by exists s.
  - rewrite Z.ltb_ge. split.
    + by left.
    + intros [H|(s & [=] & _)]; done.
Qed.

(** X1. A purge removes exactly the entries that failed before the cutoff
    [now - older_than_hours * 3600] and, when a non-empty kind is given, are
    of that kind: an entry is still stored afterwards exactly when it was
    stored before and either failed at or after the cutoff or is of another
    kind than the one asked for.  The number returned is the number of
    entries removed. *)
Theorem purge_dead_letters_removes_exactly_the_old (now : Z) (kind : option string)
    (hours : Z) (dead : gmap Z DeadLetter.t) :
  (forall k e,
      (purge_dead_letters now kind hours dead).2 !! k = Some e
      <-> dead !! k = Some e
          /\ (now - hours * 3600 <= DeadLetter.failed_at e
              \/ exists s, kind = Some s /\ s <> "" /\ DeadLetter.task_type e <> s))
  /\ (purge_dead_letters now kind hours dead).1 =
       Z.of_nat (size dead) - Z.of_nat (size (purge_dead_letters now kind hours dead).2).
Proof.
  unfold purge_dead_letters. cbn [fst snd]. split.
  - intros k e. rewrite <- purge_selects_false.
    rewrite lookup_foldr_delete_Some, purge_to_remove_elem. split.
    + intros [Hnot Hk]. split; [done|].
      destruct (purge_selects _ kind e) eqn:Hsel; [|done].
      exfalso. apply Hnot. eauto.
    + intros [Hk Hsel]. split; [|done].
      intros (e' & Hk' & Hsel'). congruence.
  - pose proof (size_foldr_delete dead
      (filter (fun kv => purge_selects (now - hours * 3600) kind kv.2 = true)
              (map_to_list dead)).*1) as Hsize.
    rewrite <- Hsize; [lia| |].
    + apply (sublist_NoDup _ (map_to_list dead).*1); [apply NoDup_fst_map_to_list|].
      apply fmap_sublist, sublist_filter.
    + intros j Hj. apply purge_to_remove_elem in Hj as (e & -> & _). eauto.
Qed.

(** X2. Asked for a non-empty kind, the listing holds exactly the stored
    entries whose [task_type] is that kind; asked for no kind, or for the
    empty string, it holds every stored entry, as many as the dict has keys. *)
Theorem get_dead_letters_lists_the_kind (dead : gmap Z DeadLetter.t) (e : DeadLetter.t) :
  (forall s,
      s <> "" ->
      e ∈ get_dead_letters (Some s) dead
      <-> (exists k, dead !! k = Some e) /\ DeadLetter.task_type e = s)
  /\ (forall kind,
        kind = None \/ kind = Some "" ->
        (e ∈ get_dead_letters kind dead <-> exists k, dead !! k = Some e)
        /\ length (get_dead_letters kind dead) = size dead).
Proof.
  assert (Hall : e ∈ (map_to_list dead).*2 <-> exists k, dead !! k = Some e).
  { rewrite list_elem_of_fmap. split.
    - intros ([k e'] & -> & Hin). apply elem_of_map_to_list in Hin. by exists k.
    - intros (k & Hk). exists (k, e). split; [done|]. by apply elem_of_map_to_list. }
  split.
  - intros s Hs. unfold get_dead_letters, truthy_str.
    rewrite (bool_decide_eq_false_2 (s = "")) by done. cbn [negb].
    rewrite list_elem_of_filter, Hall. split.
    + intros [[= Hty] Hk]. done.
    + intros [Hk <-]. done.
  - intros kind Hkind.
    assert (Hlist : get_dead_letters kind dead = (map_to_list dead).*2).
    { unfold get_dead_letters, truthy_str. destruct Hkind as [-> | ->]; [done|].
      by rewrite bool_decide_eq_true_2. }
    rewrite Hlist. split; [exact Hall|].
    by rewrite length_fmap, length_map_to_list.
Qed.

(** ** Circuit breakers: lifetime of records, the tripped state, refusals *)

Lemma with_breakers_id (rh : RetryHandler) : with_breakers (circuit_breakers rh) rh = rh.
Proof. by destruct rh. Qed.

Lemma ensure_breaker_present (k : string) (cbs : gmap string Breaker) :
  is_Some (cbs !! k) -> ensure_breaker k cbs = cbs.
Proof. intros [b Hb]. unfold ensure_breaker. by rewrite Hb. Qed.

(** X3. A breaker record, once created, is never deleted: every operation
    keeps a record for every kind that has one.  Records are created only by
    a breaker check or a recorded failure of that kind; a success or a reset
    for a kind without record changes nothing. *)
Theorem breaker_records_are_never_deleted (op : BreakerOp) (rh : RetryHandler)
    (k : string) :
  (is_Some (circuit_breakers rh !! k) ->
   is_Some (circuit_breakers (apply_op op rh) !! k))
  /\ (circuit_breakers rh !! k = None ->
      is_Some (circuit_breakers (apply_op op rh) !! k) ->
      exists now, op = OpCheck now k \/ op = OpFailure now k)
  /\ (circuit_breakers rh !! k = None ->
      record_success k rh = rh /\ reset_circuit_breaker k rh = rh).
Proof.
  split; [|split].
  - intros Hk. destruct (decide (op_kind op = k)) as [<-|Hne].
    2: { by rewrite apply_op_frame. }
    destruct op; cbn [apply_op op_kind] in *.
    + destruct (check_breaker_lookup now task_type rh) as (s & -> & _). eauto.
    + unfold record_success. destruct Hk as [b Hb]. rewrite Hb.
      destruct (state b); simpl; rewrite ?lookup_insert_eq, ?Hb; eauto.
    + rewrite record_failure_lookup. eauto.
    + unfold reset_circuit_breaker. destruct Hk as [b Hb]. rewrite Hb. simpl.
      rewrite lookup_insert_eq. eauto.
  - intros Hnone Hsome. destruct (decide (op_kind op = k)) as [<-|Hne].
    2: { rewrite apply_op_frame, Hnone in Hsome by done. by destruct Hsome. }
    destruct op; cbn [apply_op op_kind] in *.
    + exists now. by left.
    + unfold record_success in Hsome. rewrite Hnone in Hsome.
      rewrite Hnone in Hsome. by destruct Hsome.
    + exists now. by right.
    + unfold reset_circuit_breaker in Hsome. rewrite Hnone in Hsome.
      rewrite Hnone in Hsome. by destruct Hsome.
  - intros Hnone. unfold record_success, reset_circuit_breaker. by rewrite Hnone.
Qed.

Lemma state_of_check now k rh :
  state_of k (_check_circuit_breaker now k rh).2 = state_of k rh
  \/ (state_of k rh = opened
      /\ state_of k (_check_circuit_breaker now k rh).2 = half_open).
Proof.
  destruct (check_breaker_lookup now k rh) as (s & Hl & Hs).
  assert (Hafter : state_of k (_check_circuit_breaker now k rh).2 = s)
    by (unfold state_of; by rewrite Hl).
  rewrite Hafter. destruct Hs as [->|[Ho ->]]; auto.
Qed.

Lemma failures_of_check now k rh :
  failures_of k (_check_circuit_breaker now k rh).2 = failures_of k rh.
Proof.
  destruct (check_breaker_lookup now k rh) as (s & Hl & _).
  unfold failures_of at 1. by rewrite Hl.
Qed.

Lemma tripped_wf_lookup (rh : RetryHandler) :
  tripped_wf rh <->
  forall k, state_of k rh <> closed -> failure_threshold rh <= failures_of k rh.
Proof.
  unfold tripped_wf, state_of, failures_of. split.
  - intros Hwf k. destruct (circuit_breakers rh !! k) as [b|] eqn:Hb; simpl; [eauto|done].
  - intros Hwf k b Hb. specialize (Hwf k). rewrite Hb in Hwf. done.
Qed.

Lemma apply_op_tripped_wf (op : BreakerOp) (rh : RetryHandler) :
  tripped_wf rh -> tripped_wf (apply_op op rh).
Proof.
  rewrite !tripped_wf_lookup. intros Hwf k. rewrite apply_op_threshold.
  destruct (decide (op_kind op = k)) as [<-|Hne].
  2: { rewrite state_of_frame, failures_of_frame by done. apply Hwf. }
  specialize (Hwf (op_kind op)).
  destruct op; cbn [apply_op op_kind] in *.
  - rewrite failures_of_check.
    destruct (state_of_check now task_type rh) as [->|[Ho ->]]; [done|].
    intros _. apply Hwf. by rewrite Ho.
  - unfold state_of at 1, failures_of at 1, record_success.
    destruct (circuit_breakers rh !! task_type) as [b|] eqn:Hb; [|by rewrite Hb].
    unfold state_of, failures_of in Hwf. rewrite Hb in Hwf. simpl in Hwf.
    destruct (state b) eqn:Hs; simpl; rewrite ?lookup_insert_eq, ?Hb; simpl;
      rewrite ?Hs; done.
  - rewrite failures_of_record_failure, state_of_record_failure.
    destruct (failure_threshold rh <=? failures_of task_type rh + 1) eqn:Hle; simpl.
    + intros _. by apply Z.leb_le.
    + intros Hs. specialize (Hwf Hs). lia.
  - unfold state_of at 1, reset_circuit_breaker.
    destruct (circuit_breakers rh !! task_type) as [b|] eqn:Hb; simpl.
    + by rewrite lookup_insert_eq.
    + by rewrite Hb.
Qed.

Lemma tripped_wf_init : tripped_wf RetryHandler_init.
Proof. intros k b Hb. simpl in Hb. by rewrite lookup_empty in Hb. Qed.

(** X4. In every registry reached from a new one, a breaker that is not
    CLOSED has at least [failure_threshold] failures on its counter; every
    operation keeps this.  Hence a failure recorded while HALF_OPEN always
    re-opens the breaker and refreshes [last_failure]. *)
Theorem failure_in_half_open_reopens (rh : RetryHandler) (k : string) (now : Z) :
  tripped_wf rh ->
  (forall ops, tripped_wf (run_ops ops rh))
  /\ (state_of k rh = half_open ->
      circuit_breakers (record_failure now k rh) !! k =
        Some {| failures := failures_of k rh + 1;
                last_failure := Some now;
                state := opened |}).
Proof.
  intros Hwf. split.
  - intros ops. induction ops as [|op ops IH] using rev_ind; [done|].
    rewrite run_ops_snoc. by apply apply_op_tripped_wf.
  - intros Hs. rewrite record_failure_lookup.
    pose proof (proj1 (tripped_wf_lookup rh) Hwf k) as Hk. rewrite Hs in Hk.
    specialize (Hk ltac:(done)).
    replace (failure_threshold rh <=? failures_of k rh + 1) with true
      by (symmetry; apply Z.leb_le; lia).
    rewrite Hs. done.
Qed.

(** X5. [should_retry] refuses, with no delay, a task that has used up its
    retries, and then it does not even look at the breaker; it also refuses
    while the breaker of the kind is OPEN and the recovery timeout has not
    passed since the last failure.  In both cases the registry is unchanged. *)
Theorem should_retry_refuses (cfg : Settings) (now : Z) (u : Q) (task : Task.t)
    (e : exn) (rh : RetryHandler) :
  (Task.max_retries task <= Task.retry_count task ->
   should_retry cfg now u task e rh = ((false, None), rh))
  /\ (forall b t,
        circuit_breakers rh !! Task.task_type task = Some b ->
        state b = opened ->
        last_failure b = Some t ->
        now - t <= recovery_timeout rh ->
        should_retry cfg now u task e rh = ((false, None), rh)).
Proof.
  split.
  - intros Hmax. unfold should_retry.
    by replace (Task.max_retries task <=? Task.retry_count task) with true
      by (symmetry; apply Z.leb_le; done).
  - intros b t Hb Hs Ht Hlt. unfold should_retry.
    destruct (Task.max_retries task <=? Task.retry_count task); [done|].
    unfold _check_circuit_breaker.
    rewrite ensure_breaker_present by eauto. rewrite Hb. simpl. rewrite Hs, Ht. simpl.
    replace (recovery_timeout rh <? now - t) with false
      by (symmetry; apply Z.ltb_ge; done).
    rewrite andb_false_r. simpl. by rewrite with_breakers_id.
Qed.

(** ** Retry delays: bounds and growth *)

Lemma strategy_never_fixed (k : string) (e : exn) : _get_retry_strategy k e <> FIXED.
Proof. unfold _get_retry_strategy. repeat case_bool_decide; done. Qed.

(** Rounding keeps the sign it is given. *)
Lemma binary_round_aux_nonneg (mx ex : Z) (lx : location) :
  float_nonneg (binary_round_aux prec emax false mx ex lx).
Proof.
  unfold binary_round_aux.
  destruct (shr_fexp prec emax mx ex lx) as [mrs' e'].
  destruct (shr_fexp prec emax _ e' loc_Exact) as [mrs'' e''].
  destruct (shr_m mrs''); [done| |done].
  by destruct (e'' <=? emax - prec).
Qed.

Lemma binary_normalize_nonneg (m e : Z) :
  0 <= m -> float_nonneg (binary_normalize prec emax m e false).
Proof.
  intros Hm. destruct m as [|m|m]; [done| |lia].
  unfold binary_normalize, binary_round.
  destruct (shl_align m e _) as [mz ez]. apply binary_round_aux_nonneg.
Qed.

Lemma float_of_int_nonneg (z : Z) (x : spec_float) :
  0 <= z -> float_of_int z = inr x -> float_nonneg x.
Proof.
  intros Hz. unfold float_of_int.
  pose proof (binary_normalize_nonneg z 0 Hz) as Hx.
  destruct (binary_normalize prec emax z 0 false); intros [= <-]; done.
Qed.

Lemma float_of_Q_nonneg (q : Q) : (0 <= q)%Q -> float_nonneg (float_of_Q q).
Proof.
  intros Hq. unfold float_of_Q.
  assert (Hn : 0 <= Qnum q) by (unfold Qle in Hq; simpl in Hq; lia).
  pose proof (binary_normalize_nonneg (Qnum q) 0 Hn) as Ha.
  pose proof (binary_normalize_nonneg (Z.pos (Qden q)) 0 ltac:(lia)) as Hb.
  destruct (binary_normalize prec emax (Qnum q) 0 false) as [sa|sa| |sa ma ea],
           (binary_normalize prec emax (Z.pos (Qden q)) 0 false) as [sb|sb| |sb mb eb];
    simpl in Ha, Hb; subst; try done.
  unfold SFdiv. destruct (SFdiv_core_binary _ _ _ _ _ _) as [[mz ez] lz].
  apply binary_round_aux_nonneg.
Qed.

Lemma float_mul_nonneg (x y : spec_float) :
  float_nonneg x -> float_nonneg y -> float_nonneg (float_mul x y).
Proof.
  destruct x as [sx|sx| |sx mx ex], y as [sy|sy| |sy my ey]; simpl;
    intros Hx Hy; subst; try done.
  apply binary_round_aux_nonneg.
Qed.

Lemma float_add_nonneg (x y : spec_float) :
  float_nonneg x -> float_nonneg y -> float_nonneg (float_add x y).
Proof.
  destruct x as [sx|sx| |sx mx ex], y as [sy|sy| |sy my ey]; simpl;
    intros Hx Hy; subst; try done.
  unfold float_add, SFadd. apply binary_normalize_nonneg. simpl. lia.
Qed.

Lemma py_int_nonneg (x : spec_float) (seconds : Z) :
  float_nonneg x -> py_int x = inr seconds -> 0 <= seconds.
Proof.
  destruct x as [s|s| |s m e]; simpl; intros Hx; subst; intros [= <-]; [done|].
  destruct e as [|p|p].
  - lia.
  - apply Z.mul_nonneg_nonneg; [lia|]. apply Z.pow_nonneg. lia.
  - apply Z.quot_pos; [lia|]. apply Z.pow_pos_nonneg; lia.
Qed.

(** X6. For a retry count from 0 upwards the computation of the delay
    returns for every error but a rate-limit error, and what it returns is at
    most 300 seconds, because the fixed strategy is never selected and the
    other three are capped; with a non-negative base delay and draw it is
    never negative.  For a rate-limit error it can raise instead, and then
    what it raises is the OverflowError or ValueError of a float conversion. *)
Theorem retry_delay_is_capped (cfg : Settings) (u : Q) (task : Task.t) (e : exn) :
  0 <= Task.retry_count task ->
  (forall delay,
      _calculate_retry_delay cfg u task e = inr delay ->
      delay <= 300
      /\ (0 <= retry_delay cfg -> (0 <= u)%Q -> 0 <= delay))
  /\ (class_name e ∉ ["RateLimitError"; "TooManyRequestsError"] ->
      exists delay, _calculate_retry_delay cfg u task e = inr delay)
  /\ (forall raised,
        _calculate_retry_delay cfg u task e = inl raised ->
        class_name e ∈ ["RateLimitError"; "TooManyRequestsError"]
        /\ class_name raised ∈ ["OverflowError"; "ValueError"]).
Proof.
  intros Hn. unfold _calculate_retry_delay.
  pose proof (strategy_never_fixed (Task.task_type task) e) as Hfix.
  assert (Hjitter : _get_retry_strategy (Task.task_type task) e = JITTER ->
                    class_name e ∈ ["RateLimitError"; "TooManyRequestsError"]).
  { unfold _get_retry_strategy. repeat case_bool_decide; done. }
  assert (Hother : class_name e ∉ ["RateLimitError"; "TooManyRequestsError"] ->
                   _get_retry_strategy (Task.task_type task) e <> JITTER) by tauto.
  destruct (_get_retry_strategy (Task.task_type task) e); [done| | |].
  - split; [|split; [by eexists|done]]. intros delay [= <-].
    split; [lia|]. intros Hb _.
    assert (0 <= retry_delay cfg * 2 ^ Task.retry_count task)
      by (apply Z.mul_nonneg_nonneg; [done|apply Z.pow_nonneg; lia]).
    lia.
  - split; [|split; [by eexists|done]]. intros delay [= <-].
    split; [lia|]. intros Hb _.
    assert (0 <= retry_delay cfg * (Task.retry_count task + 1))
      by (apply Z.mul_nonneg_nonneg; lia).
    lia.
  - cbv zeta.
    destruct (float_of_int (retry_delay cfg * 2 ^ Task.retry_count task))
      as [overflow|x] eqn:Hx.
    + split; [done|]. split; [intros H; by destruct (Hother H)|].
      intros raised [= <-]. split; [by apply Hjitter|].
      unfold float_of_int in Hx.
      destruct (binary_normalize prec emax _ 0 false); try done.
      injection Hx as <-. apply list_elem_of_In. simpl. tauto.
    + destruct (py_int (float_add x (float_mul (float_of_Q u) x)))
        as [overflow|seconds] eqn:Hseconds.
      * split; [done|]. split; [intros H; by destruct (Hother H)|].
        intros raised [= <-]. split; [by apply Hjitter|].
        destruct (float_add x (float_mul (float_of_Q u) x)); try done;
          injection Hseconds as <-; apply list_elem_of_In; simpl; tauto.
      * split; [|split; [by eexists|done]]. intros delay [= <-].
        split; [lia|]. intros Hb Hu.
        assert (He : 0 <= retry_delay cfg * 2 ^ Task.retry_count task)
          by (apply Z.mul_nonneg_nonneg; [done|apply Z.pow_nonneg; lia]).
        pose proof (float_of_int_nonneg _ _ He Hx) as Hfx.
        assert (0 <= seconds).
        { apply (py_int_nonneg _ _ (float_add_nonneg _ _ Hfx
                   (float_mul_nonneg _ _ (float_of_Q_nonneg u Hu) Hfx)) Hseconds). }
        lia.
Qed.

(** X7. For an error other than a rate-limit error the delay never shrinks as
    the retry count grows: a later attempt waits at least as long as an
    earlier one, up to the cap. *)
Theorem retry_delay_grows_with_attempts (cfg : Settings) (u : Q)
    (task1 task2 : Task.t) (e : exn) :
  0 <= retry_delay cfg ->
  class_name e ∉ ["RateLimitError"; "TooManyRequestsError"] ->
  0 <= Task.retry_count task1 ->
  Task.retry_count task1 <= Task.retry_count task2 ->
  exists delay1 delay2,
    _calculate_retry_delay cfg u task1 e = inr delay1
    /\ _calculate_retry_delay cfg u task2 e = inr delay2
    /\ delay1 <= delay2.
Proof.
  intros Hb Hrate Hn Hle. unfold _calculate_retry_delay.
  assert (Hs : _get_retry_strategy (Task.task_type task1) e =
               _get_retry_strategy (Task.task_type task2) e) by done.
  rewrite <- Hs.
  assert (Hjitter : _get_retry_strategy (Task.task_type task1) e <> JITTER).
  { unfold _get_retry_strategy. repeat case_bool_decide; done. }
  assert (Hpow : retry_delay cfg * 2 ^ Task.retry_count task1 <=
                 retry_delay cfg * 2 ^ Task.retry_count task2).
  { apply Z.mul_le_mono_nonneg_l; [done|]. apply Z.pow_le_mono_r; lia. }
  destruct (_get_retry_strategy (Task.task_type task1) e); [| | |done].
  - eexists _, _. split; [done|]. split; [done|]. lia.
  - eexists _, _. split; [done|]. split; [done|]. lia.
  - assert (retry_delay cfg * (Task.retry_count task1 + 1) <=
            retry_delay cfg * (Task.retry_count task2 + 1))
      by (apply Z.mul_le_mono_nonneg_l; lia).
    eexists _, _. split; [done|]. split; [done|]. lia.
Qed.

(** ** The task table and the in-memory queue *)

Lemma create_task_result (w : World) (kind : string) (payload : pyobj) :
  TaskQueue.create_task kind payload w =
    (inr (Task.mk (next_id (task_queue w)) kind (json_dumps payload) PENDING None None
                  0 (max_retries (settings w)) (Some (clock w)) None None),
     with_task_queue
       {| table :=
            <[next_id (task_queue w) :=
                Task.mk (next_id (task_queue w)) kind (json_dumps payload) PENDING
                        None None 0 (max_retries (settings w)) (Some (clock w))
                        None None]> (table (task_queue w));
          next_id := next_id (task_queue w) + 1;
          _queue := _queue (task_queue w) ++ [next_id (task_queue w)];
          _tasks :=
            <[pretty (next_id (task_queue w)) :=
                Task.mk (next_id (task_queue w)) kind (json_dumps payload) PENDING
                        None None 0 (max_retries (settings w)) (Some (clock w))
                        None None]> (_tasks (task_queue w)) |} w).
Proof. reflexivity. Qed.

(** The row [retry_task] writes back for a stored task. *)
Lemma retry_task_found (w : World) (task_id : Z) (task : Task.t) :
  table (task_queue w) !! task_id = Some task ->
  TaskQueue.retry_task task_id w =
    if Task.max_retries task <=? Task.retry_count task
    then
      (inr (Task.with_error_message
              (Some ("Max retries (" +:+ pretty (Task.max_retries task) +:+ ") exceeded"))
              (Task.with_status FAILED task)),
       with_task_queue
         {| table :=
              <[task_id :=
                  Task.with_error_message
                    (Some ("Max retries (" +:+ pretty (Task.max_retries task)
                           +:+ ") exceeded"))
                    (Task.with_status FAILED task)]> (table (task_queue w));
            next_id := next_id (task_queue w);
            _queue := _queue (task_queue w);
            _tasks := _tasks (task_queue w) |} w)
    else
      (inr (Task.with_error_message None
              (Task.with_status RETRYING
                 (Task.with_retry_count (Task.retry_count task + 1) task))),
       with_task_queue
         {| table :=
              <[task_id :=
                  Task.with_error_message None
                    (Task.with_status RETRYING
                       (Task.with_retry_count (Task.retry_count task + 1) task))]>
                (table (task_queue w));
            next_id := next_id (task_queue w);
            _queue := _queue (task_queue w) ++ [Task.id task];
            _tasks := _tasks (task_queue w) |} w).
Proof.
  intros Hrow. unfold TaskQueue.retry_task, bind, get. rewrite Hrow.
  destruct (Task.max_retries task <=? Task.retry_count task); reflexivity.
Qed.

Lemma retry_task_missing (w : World) (task_id : Z) :
  table (task_queue w) !! task_id = None ->
  TaskQueue.retry_task task_id w =
    (inl (PyExn "ValueError" ("Task " +:+ pretty task_id +:+ " not found")), w).
Proof. intros Hrow. unfold TaskQueue.retry_task, bind, get. by rewrite Hrow. Qed.

Lemma table_wf_store_row (tq : TaskQueueState) (task_id : Z) (row : Task.t) :
  table_wf tq -> is_Some (table tq !! task_id) -> Task.id row = task_id ->
  table_wf (TaskQueue.store_row row tq).
Proof.
  intros [Hrows Hq] [old Hold] Hid. split.
  - intros k t. cbn [TaskQueue.store_row table next_id]. rewrite Hid.
    destruct (decide (task_id = k)) as [<-|Hne].
    + rewrite lookup_insert_eq. intros [= <-]. split; [done|].
      by destruct (Hrows _ _ Hold).
    + rewrite lookup_insert_ne by done. apply Hrows.
  - intros k Hk. cbn [TaskQueue.store_row table _queue] in *. rewrite Hid.
    destruct (decide (task_id = k)) as [<-|Hne].
    + rewrite lookup_insert_eq. eauto.
    + rewrite lookup_insert_ne by done. by apply Hq.
Qed.

Lemma table_wf_update (w : World) (task_id : Z) (status : TaskStatus)
    (result error_message : option string) :
  table_wf (task_queue w) ->
  table_wf (task_queue
    (TaskQueue.update_task_status task_id status result error_message w).2).
Proof.
  intros Hwf. destruct (table (task_queue w) !! task_id) as [task|] eqn:Hrow.
  - rewrite (update_task_status_found _ _ task) by done. wsimpl.
    apply (table_wf_store_row _ task_id); [done|eauto|].
    rewrite updated_row_id. by destruct (proj1 Hwf _ _ Hrow).
  - by rewrite update_task_status_missing.
Qed.

Lemma table_wf_create (w : World) (kind : string) (payload : pyobj) :
  table_wf (task_queue w) ->
  table_wf (task_queue (TaskQueue.create_task kind payload w).2).
Proof.
  intros [Hrows Hq]. rewrite create_task_result. wsimpl. split.
  - intros k t. cbn [table next_id].
    destruct (decide (next_id (task_queue w) = k)) as [<-|Hne].
    + rewrite lookup_insert_eq. intros [= <-]. simpl. lia.
    + rewrite lookup_insert_ne by done. intros Hk.
      destruct (Hrows _ _ Hk). split; [done|lia].
  - intros k. cbn [table _queue]. rewrite elem_of_app, list_elem_of_singleton.
    intros [Hk| ->].
    + destruct (decide (next_id (task_queue w) = k)) as [<-|Hne].
      * rewrite lookup_insert_eq. eauto.
      * rewrite lookup_insert_ne by done. by apply Hq.
    + rewrite lookup_insert_eq. eauto.
Qed.

Lemma table_wf_retry (w : World) (task_id : Z) :
  table_wf (task_queue w) ->
  table_wf (task_queue (TaskQueue.retry_task task_id w).2).
Proof.
  intros [Hrows Hq]. destruct (table (task_queue w) !! task_id) as [task|] eqn:Hrow.
  2: { by rewrite retry_task_missing. }
  rewrite (retry_task_found _ _ task) by done.
  destruct (Hrows _ _ Hrow) as [Hid Hlt].
  destruct (Task.max_retries task <=? Task.retry_count task); wsimpl; split.
  - intros k t. cbn [table next_id].
    destruct (decide (task_id = k)) as [<-|Hne].
    + rewrite lookup_insert_eq. by intros [= <-].
    + rewrite lookup_insert_ne by done. apply Hrows.
  - intros k Hk. cbn [table _queue] in *.
    destruct (decide (task_id = k)) as [<-|Hne].
    + rewrite lookup_insert_eq. eauto.
    + rewrite lookup_insert_ne by done. by apply Hq.
  - intros k t. cbn [table next_id].
    destruct (decide (task_id = k)) as [<-|Hne].
    + rewrite lookup_insert_eq. by intros [= <-].
    + rewrite lookup_insert_ne by done. apply Hrows.
  - intros k. cbn [table _queue]. rewrite elem_of_app, list_elem_of_singleton.
    rewrite Hid. intros [Hk| ->].
    + destruct (decide (task_id = k)) as [<-|Hne].
      * rewrite lookup_insert_eq. eauto.
      * rewrite lookup_insert_ne by done. by apply Hq.
    + rewrite lookup_insert_eq. eauto.
Qed.

Lemma get_next_task_result (w : World) :
  TaskQueue_get_next_task w =
    match _queue (task_queue w) with
    | task_id :: rest =>
        (inr (table (task_queue w) !! task_id),
         with_task_queue
           {| table := table (task_queue w); next_id := next_id (task_queue w);
              _queue := rest; _tasks := _tasks (task_queue w) |} w)
    | [] => (inr None, with_clock (clock w + 1) w)
    end.
Proof.
  unfold TaskQueue_get_next_task, bind, get.
  destruct (_queue (task_queue w)); reflexivity.
Qed.

Lemma table_wf_get_next (w : World) :
  table_wf (task_queue w) -> table_wf (task_queue (TaskQueue_get_next_task w).2).
Proof.
  intros Hwf. rewrite get_next_task_result.
  destruct (_queue (task_queue w)) as [|task_id rest] eqn:Hqueue; wsimpl; [done|].
  destruct Hwf as [Hrows Hq].
  split; [done|]. intros k Hk. cbn [table _queue] in *. apply Hq.
  rewrite Hqueue. by right.
Qed.

(** X8. The task table stays well formed under every operation of the
    queue: each row sits under its own id, ids stay below the row-id counter,
    and every id waiting in the in-memory queue has a row.  This holds after
    creating a task, updating a status (found or not), retrying (found or
    not) and taking the next task. *)
Theorem task_table_stays_well_formed (w : World) :
  table_wf (task_queue w) ->
  (forall kind payload,
      table_wf (task_queue (TaskQueue.create_task kind payload w).2))
  /\ (forall task_id status result error_message,
        table_wf (task_queue
          (TaskQueue.update_task_status task_id status result error_message w).2))
  /\ (forall task_id, table_wf (task_queue (TaskQueue.retry_task task_id w).2))
  /\ table_wf (task_queue (TaskQueue_get_next_task w).2).
Proof.
  intros Hwf. split; [|split; [|split]]; intros.
  - by apply table_wf_create.
  - by apply table_wf_update.
  - by apply table_wf_retry.
  - by apply table_wf_get_next.
Qed.

(** X9. Creating a task inserts one new PENDING row with retry count 0 under
    an id no row had before, appends that id to the in-memory queue and
    leaves every other row as it was; the stored payload decodes back to the
    payload given. *)
Theorem create_task_adds_one_fresh_row (w : World) (kind : string) (payload : pyobj) :
  table_wf (task_queue w) ->
  exists task,
    (TaskQueue.create_task kind payload w).1 = inr task
    /\ table (task_queue w) !! Task.id task = None
    /\ table (task_queue (TaskQueue.create_task kind payload w).2) !! Task.id task =
         Some task
    /\ Task.status task = PENDING
    /\ Task.retry_count task = 0
    /\ Task.task_type task = kind
    /\ json_loads (Task.payload task) = payload
    /\ _queue (task_queue (TaskQueue.create_task kind payload w).2) =
         _queue (task_queue w) ++ [Task.id task]
    /\ forall k, k <> Task.id task ->
         table (task_queue (TaskQueue.create_task kind payload w).2) !! k =
           table (task_queue w) !! k.
Proof.
  intros [Hrows _]. rewrite create_task_result. eexists. split; [reflexivity|].
  wsimpl. cbn [table _queue Task.id Task.status Task.retry_count Task.task_type
               Task.payload]. repeat split.
  - destruct (table (task_queue w) !! next_id (task_queue w)) as [t|] eqn:Ht; [|done].
    destruct (Hrows _ _ Ht). lia.
  - apply lookup_insert_eq.
  - intros k Hk. by rewrite lookup_insert_ne.
Qed.

(** X10. The in-memory queue hands tasks out first in, first out: with a
    well-formed table, taking the next task yields the row of the oldest
    waiting id and removes just that id; on an empty queue it yields nothing
    after waiting one second and changes nothing else. *)
Theorem task_queue_is_first_in_first_out (w : World) :
  table_wf (task_queue w) ->
  (forall task_id rest,
      _queue (task_queue w) = task_id :: rest ->
      exists task,
        (TaskQueue_get_next_task w).1 = inr (Some task)
        /\ Task.id task = task_id
        /\ table (task_queue w) !! task_id = Some task
        /\ _queue (task_queue (TaskQueue_get_next_task w).2) = rest
        /\ table (task_queue (TaskQueue_get_next_task w).2) = table (task_queue w))
  /\ (_queue (task_queue w) = [] ->
      TaskQueue_get_next_task w = (inr None, with_clock (clock w + 1) w)).
Proof.
  intros [Hrows Hq]. rewrite get_next_task_result. split.
  - intros task_id rest Hqueue. rewrite Hqueue. wsimpl.
    destruct (Hq task_id) as [task Htask]; [rewrite Hqueue; by left|].
    exists task. rewrite Htask. repeat split; try done.
    by destruct (Hrows _ _ Htask).
  - by intros ->.
Qed.

(** ** Status updates and retries on a stored row *)

Lemma updated_row_fields (now : Z) (status : TaskStatus)
    (result error_message : option string) (task : Task.t) :
  Task.task_type (TaskQueue.updated_row now status result error_message task) =
    Task.task_type task
  /\ Task.payload (TaskQueue.updated_row now status result error_message task) =
       Task.payload task
  /\ Task.max_retries (TaskQueue.updated_row now status result error_message task) =
       Task.max_retries task
  /\ Task.created_at (TaskQueue.updated_row now status result error_message task) =
       Task.created_at task
  /\ Task.result (TaskQueue.updated_row now status result error_message task) =
       match result with Some r => Some r | None => Task.result task end
  /\ Task.error_message (TaskQueue.updated_row now status result error_message task) =
       match error_message with Some m => Some m | None => Task.error_message task end.
Proof.
  unfold TaskQueue.updated_row.
  destruct result, error_message; repeat case_match; done.
Qed.

Lemma updated_row_started_at (now : Z) (status : TaskStatus)
    (result error_message : option string) (task : Task.t) :
  Task.started_at (TaskQueue.updated_row now status result error_message task) =
    match Task.started_at task with
    | Some t => Some t
    | None => if bool_decide (status = RUNNING) then Some now else None
    end.
Proof.
  unfold TaskQueue.updated_row.
  destruct task, started_at, status, result, error_message; reflexivity.
Qed.

Lemma updated_row_completed_at (now : Z) (status : TaskStatus)
    (result error_message : option string) (task : Task.t) :
  Task.completed_at (TaskQueue.updated_row now status result error_message task) =
    if bool_decide (status ∈ [COMPLETED; FAILED]) then Some now
    else Task.completed_at task.
Proof.
  unfold TaskQueue.updated_row.
  destruct task, started_at, status, result, error_message; reflexivity.
Qed.

(** X11. A status update touches one row only and, on it, only the status,
    the result and error message that were passed, and the timestamps:
    [started_at] is set by the first RUNNING update and never changed again,
    [completed_at] is set by every COMPLETED or FAILED update.  A result or an
    error message that is not passed is kept, never cleared.  The cache entry
    of the row is refreshed; the queue and the row-id counter are untouched. *)
Theorem update_task_status_touches_one_row (w : World) (task_id : Z) (task : Task.t)
    (status : TaskStatus) (result error_message : option string) :
  table (task_queue w) !! task_id = Some task ->
  Task.id task = task_id ->
  exists row,
    (TaskQueue.update_task_status task_id status result error_message w).1 = inr row
    /\ table (task_queue
         (TaskQueue.update_task_status task_id status result error_message w).2)
         !! task_id = Some row
    /\ _tasks (task_queue
         (TaskQueue.update_task_status task_id status result error_message w).2)
         !! pretty task_id = Some row
    /\ (Task.id row = task_id
        /\ Task.task_type row = Task.task_type task
        /\ Task.payload row = Task.payload task
        /\ Task.retry_count row = Task.retry_count task
        /\ Task.max_retries row = Task.max_retries task
        /\ Task.created_at row = Task.created_at task)
    /\ Task.started_at row =
         match Task.started_at task with
         | Some t => Some t
         | None => if bool_decide (status = RUNNING) then Some (clock w) else None
         end
    /\ Task.completed_at row =
         (if bool_decide (status ∈ [COMPLETED; FAILED]) then Some (clock w)
          else Task.completed_at task)
    /\ Task.result row =
         match result with Some r => Some r | None => Task.result task end
    /\ Task.error_message row =
         match error_message with
         | Some m => Some m
         | None => Task.error_message task
         end
    /\ (forall k, k <> task_id ->
          table (task_queue
            (TaskQueue.update_task_status task_id status result error_message w).2)
            !! k = table (task_queue w) !! k)
    /\ _queue (task_queue
         (TaskQueue.update_task_status task_id status result error_message w).2) =
         _queue (task_queue w)
    /\ next_id (task_queue
         (TaskQueue.update_task_status task_id status result error_message w).2) =
         next_id (task_queue w).
Proof.
  intros Hrow Hid.
  rewrite (update_task_status_found w task_id task) by done. wsimpl.
  cbn [TaskQueue.store_row table _tasks _queue next_id].
  rewrite updated_row_id, Hid.
  destruct (updated_row_fields (clock w) status result error_message task)
    as (Hty & Hpl & Hmax & Hcr & Hres & Herr).
  eexists. split; [reflexivity|].
  split; [apply lookup_insert_eq|]. split; [apply lookup_insert_eq|].
  split.
  { rewrite updated_row_id, updated_row_retry_count. done. }
  split; [apply updated_row_started_at|].
  split; [apply updated_row_completed_at|].
  split; [done|]. split; [done|].
  split; [|done]. intros k Hk. by rewrite lookup_insert_ne.
Qed.

Lemma retry_bounded_retry (w : World) (task_id : Z) :
  retry_bounded (task_queue w) ->
  retry_bounded (task_queue (TaskQueue.retry_task task_id w).2).
Proof.
  intros Hb. destruct (table (task_queue w) !! task_id) as [task|] eqn:Hrow.
  2: { by rewrite retry_task_missing. }
  rewrite (retry_task_found _ _ task) by done.
  pose proof (Hb _ _ Hrow) as Hle.
  destruct (Task.max_retries task <=? Task.retry_count task) eqn:Hcap; wsimpl;
    intros k t; cbn [table];
    (destruct (decide (task_id = k)) as [<-|Hne];
     [rewrite lookup_insert_eq; intros [= <-]; simpl
     |rewrite lookup_insert_ne by done; apply Hb]).
  - done.
  - apply Z.leb_gt in Hcap. lia.
Qed.

(** X12. [retry_task] never lets a row exceed its retry allowance: if no row
    has more retries than allowed, the same holds afterwards.  Below the
    allowance it adds one to the count, sets RETRYING, clears the error
    message and queues the id once more; at the allowance it sets FAILED with
    the "Max retries" message and queues nothing.  An unknown id raises
    ValueError and changes nothing. *)
Theorem retry_task_respects_the_allowance (w : World) (task_id : Z) :
  retry_bounded (task_queue w) ->
  retry_bounded (task_queue (TaskQueue.retry_task task_id w).2)
  /\ (table (task_queue w) !! task_id = None ->
      exists msg,
        TaskQueue.retry_task task_id w = (inl (PyExn "ValueError" msg), w))
  /\ (forall task,
        table (task_queue w) !! task_id = Some task ->
        exists row,
          (TaskQueue.retry_task task_id w).1 = inr row
          /\ table (task_queue (TaskQueue.retry_task task_id w).2) !! task_id =
               Some row
          /\ (Task.retry_count task < Task.max_retries task ->
              Task.status row = RETRYING
              /\ Task.retry_count row = Task.retry_count task + 1
              /\ Task.error_message row = None
              /\ _queue (task_queue (TaskQueue.retry_task task_id w).2) =
                   _queue (task_queue w) ++ [Task.id task])
          /\ (Task.max_retries task <= Task.retry_count task ->
              Task.status row = FAILED
              /\ Task.retry_count row = Task.retry_count task
              /\ Task.error_message row =
                   Some ("Max retries (" +:+ pretty (Task.max_retries task)
                         +:+ ") exceeded")
              /\ _queue (task_queue (TaskQueue.retry_task task_id w).2) =
                   _queue (task_queue w))).
Proof.
  intros Hb. split; [by apply retry_bounded_retry|]. split.
  - intros Hnone. eexists. by apply retry_task_missing.
  - intros task Hrow. rewrite (retry_task_found _ _ task) by done.
    destruct (Task.max_retries task <=? Task.retry_count task) eqn:Hcap; wsimpl;
      cbn [table _queue]; eexists; (split; [reflexivity|]);
      (split; [apply lookup_insert_eq|]).
    + apply Z.leb_le in Hcap. split; [lia|]. done.
    + apply Z.leb_gt in Hcap. split; [done|]. lia.
Qed.

(** ** The Redis queue *)

Lemma redis_get_next_task_result (w : World) :
  RedisTaskQueue.get_next_task w =
    if redis_client (redis_queue w) then
      match last (redis_list (redis_queue w)) with
      | Some task_data =>
          (inr (Some task_data),
           with_redis_queue
             {| redis_client := redis_client (redis_queue w);
                redis_list := removelast (redis_list (redis_queue w));
                processing :=
                  <[Envelope.id task_data := clock w + 300]>
                    (processing (redis_queue w)) |} w)
      | None => (inr None, w)
      end
    else (inr None, w).
Proof.
  unfold RedisTaskQueue.get_next_task, try_except, bind, get.
  destruct (redis_client (redis_queue w)); [|reflexivity].
  destruct (last (redis_list (redis_queue w))); reflexivity.
Qed.

Lemma redis_create_task_result (w : World) (kind : string) (payload : pyobj) :
  redis_client (redis_queue w) = true ->
  exists task,
    TaskQueue.create_task kind payload w =
      (inr task, (TaskQueue.create_task kind payload w).2)
    /\ RedisTaskQueue.create_task kind payload w =
         (inr task,
          with_redis_queue
            {| redis_client := true;
               redis_list :=
                 {| Envelope.id := Task.id task; Envelope.task_type := kind;
                    Envelope.payload := payload;
                    Envelope.created_at := Task.created_at task |}
                   :: redis_list (redis_queue w);
               processing := processing (redis_queue w) |}
            (TaskQueue.create_task kind payload w).2).
Proof.
  intros Hrc. rewrite create_task_result. eexists. split; [reflexivity|].
  unfold RedisTaskQueue.create_task, bind. rewrite create_task_result.
  unfold RedisTaskQueue.lpush, bind, get, modify, ret. wsimpl. rewrite Hrc.
  reflexivity.
Qed.


(** X14. Submit, take, acknowledge.  On an empty Redis list with a connected
    client, the task just created is the next one taken: the envelope carries
    the id, kind and payload of the new row, whose stored payload decodes to
    the same payload; the id is marked in flight, and acknowledging it
    removes the mark again and leaves the list empty. *)
Theorem submit_take_acknowledge (w : World) (kind : string) (payload : pyobj) :
  redis_client (redis_queue w) = true ->
  redis_list (redis_queue w) = [] ->
  exists task env,
    (RedisTaskQueue.create_task kind payload w).1 = inr task
    /\ (RedisTaskQueue.get_next_task
          (RedisTaskQueue.create_task kind payload w).2).1 = inr (Some env)
    /\ Envelope.id env = Task.id task
    /\ Envelope.task_type env = kind
    /\ Envelope.payload env = payload
    /\ json_loads (Task.payload task) = Envelope.payload env
    /\ table (task_queue
         (RedisTaskQueue.get_next_task
            (RedisTaskQueue.create_task kind payload w).2).2) !! Envelope.id env =
         Some task
    /\ processing (redis_queue
         (RedisTaskQueue.get_next_task
            (RedisTaskQueue.create_task kind payload w).2).2) !! Envelope.id env =
         Some (clock w + 300)
    /\ redis_queue
         (RedisTaskQueue.complete_task (Envelope.id env)
            (RedisTaskQueue.get_next_task
               (RedisTaskQueue.create_task kind payload w).2).2).2 =
         {| redis_client := true; redis_list := [];
            processing := delete (Envelope.id env) (processing (redis_queue w)) |}.
Proof.
  intros Hrc Hlist.
  destruct (redis_create_task_result w kind payload Hrc) as (task & Htq & ->).
  rewrite create_task_result in Htq. injection Htq as <-.
  rewrite create_task_result. wsimpl. rewrite Hlist.
  rewrite redis_get_next_task_result. wsimpl. cbn [last removelast Envelope.id].
  eexists _, _. split; [reflexivity|]. split; [reflexivity|].
  cbn [Envelope.id Envelope.task_type Envelope.payload Task.id Task.payload table].
  split; [done|]. split; [done|]. split; [done|]. split; [done|].
  split; [apply lookup_insert_eq|]. split; [apply lookup_insert_eq|].
  unfold RedisTaskQueue.complete_task, bind, get, modify. wsimpl.
  by rewrite delete_insert_eq.
Qed.

(** ** One delivery through the enhanced worker, case by case *)

Lemma enhanced_dispatch_cases (run : HandlerRun) (task : Task.t) :
  (Task.task_type task ∈ TasksApi.valid_task_types
   /\ ((if bool_decide (Task.task_type task = "text_processing")
       then EnhancedTaskExecutor._process_text_with_errors run task
       else if bool_decide (Task.task_type task = "ai_summarization")
       then EnhancedTaskExecutor._ai_summarize_with_errors run task
       else if bool_decide (Task.task_type task = "batch_processing")
       then EnhancedTaskExecutor._batch_process_with_errors run task
       else if bool_decide (Task.task_type task = "image_processing")
       then EnhancedTaskExecutor._process_image_with_errors run task
       else raise (PyExn "ValueError" ("Unknown task type: " +:+ Task.task_type task)))
      = EnhancedTaskExecutor.handler run task))
  \/ ((Task.task_type task ∉ TasksApi.valid_task_types)
      /\ ((if bool_decide (Task.task_type task = "text_processing")
          then EnhancedTaskExecutor._process_text_with_errors run task
          else if bool_decide (Task.task_type task = "ai_summarization")
          then EnhancedTaskExecutor._ai_summarize_with_errors run task
          else if bool_decide (Task.task_type task = "batch_processing")
          then EnhancedTaskExecutor._batch_process_with_errors run task
          else if bool_decide (Task.task_type task = "image_processing")
          then EnhancedTaskExecutor._process_image_with_errors run task
          else raise (PyExn "ValueError"
                        ("Unknown task type: " +:+ Task.task_type task)))
         = raise (PyExn "ValueError" ("Unknown task type: " +:+ Task.task_type task)))).
Proof.
  destruct (decide (Task.task_type task ∈ TasksApi.valid_task_types)) as [Hk|Hk].
  - left. split; [done|]. by apply dispatch_recognized.
  - right. split; [done|].
    repeat case_bool_decide; try done; exfalso; apply Hk;
      apply list_elem_of_In; simpl; intuition congruence.
Qed.

(** The state a delivery leaves behind.  [called] and [dt] say whether a
    handler ran and for how long, [res] what came out of the dispatch. *)
Lemma process_task_outcomes (w : World) (env : Envelope.t) (task : Task.t)
    (run : HandlerRun) (u : Q) :
  table (task_queue w) !! Envelope.id env = Some task ->
  Task.id task = Envelope.id env ->
  exists (called : list Z) (dt : Z) (res : exn + string),
    ((Task.task_type task ∈ TasksApi.valid_task_types
      /\ called = [Task.id task] /\ dt = elapsed run /\ res = outcome run)
     \/ ((Task.task_type task ∉ TasksApi.valid_task_types)
         /\ called = [] /\ dt = 0
         /\ res = inl (PyExn "ValueError"
                         ("Unknown task type: " +:+ Task.task_type task))))
    /\ EnhancedWorker._process_task run u env w =
       (inr tt,
        let row1 := TaskQueue.updated_row (clock w) RUNNING None None task in
        let now := clock w + dt in
        let tq1 := TaskQueue.store_row row1 (task_queue w) in
        let stats1 := bump_total_executed (execution_stats w) in
        let calls := handler_calls w ++ called in
        match res with
        | inr r =>
            Build_World (settings w) now
              (TaskQueue.store_row
                 (TaskQueue.updated_row now COMPLETED (Some r) None row1) tq1)
              (if redis_client (redis_queue w)
               then {| redis_client := redis_client (redis_queue w);
                       redis_list := redis_list (redis_queue w);
                       processing :=
                         delete (Envelope.id env) (processing (redis_queue w)) |}
               else redis_queue w)
              (record_success (Task.task_type task) (retry_handler w))
              (dead_tasks w) (bump_successful stats1) (timers w) calls
              (if redis_client (redis_queue w)
               then tasks_processed w + 1 else tasks_processed w)
        | inl e =>
            let sr :=
              should_retry (settings w) now u task e
                (record_failure now (Task.task_type task) (retry_handler w)) in
            if sr.1.1 then
              Build_World (settings w) now
                (TaskQueue.store_row
                   (TaskQueue.updated_row now RETRYING None None row1) tq1)
                (redis_queue w) sr.2 (dead_tasks w) (bump_retried stats1)
                (timers w ++
                   [(Task.with_retry_count (Task.retry_count task + 1) task,
                     default 0 sr.1.2)])
                calls (tasks_processed w)
            else
              Build_World (settings w) now
                (TaskQueue.store_row
                   (TaskQueue.updated_row now FAILED None (Some (str e)) row1) tq1)
                (redis_queue w) sr.2
                (add_dead_letter now task e (dead_tasks w))
                (bump_failed stats1) (timers w) calls (tasks_processed w)
        end).
Proof.
  intros Hrow Hid. rewrite <- Hid in *.
  remember (EnhancedWorker._process_task run u env w) as pw eqn:HP.
  unfold EnhancedWorker._process_task in HP. rewrite <- Hid in HP.
  unfold try_except at 1 in HP. unfold bind at 1 in HP.
  unfold TaskQueue.get_task at 1 in HP. unfold bind at 1, get at 1, ret at 1 in HP.
  rewrite Hrow in HP.
  unfold EnhancedTaskExecutor.execute_task in HP.
  destruct (enhanced_dispatch_cases run task) as [[Hk Hd]|[Hk Hd]];
    rewrite Hd in HP; clear Hd;
    unfold bind at 1 in HP; unfold bind at 1 in HP;
    unfold EnhancedTaskExecutor.count at 1 in HP; unfold modify at 1 in HP;
    unfold try_except at 1 in HP; unfold bind at 1 in HP;
    wsimpl; rewrite (update_task_status_found _ _ task) in HP by done;
    unfold bind at 1 in HP.
  - (* a handler ran *)
    unfold EnhancedTaskExecutor.handler, bind at 1, modify at 1 in HP. wsimpl.
    exists [Task.id task], (elapsed run), (outcome run).
    split; [left; done|].
    destruct (outcome run) as [e|r] eqn:Hout.
    + unfold raise at 1 in HP. wsimpl.
      unfold bind at 1, modify at 1 in HP. unfold bind at 1, get at 1 in HP. wsimpl.
      cbv zeta.
      destruct (should_retry (settings w) (clock w + elapsed run) u task e
                  (record_failure (clock w + elapsed run) (Task.task_type task)
                     (retry_handler w))) as [[retry delay] rh'] eqn:Hsr.
      unfold bind at 1, modify at 1 in HP. unfold bind at 1 in HP. wsimpl.
      destruct retry.
      * unfold EnhancedTaskExecutor._schedule_retry in HP.
        unfold bind at 1 in HP. unfold bind at 1 in HP.
        erewrite update_task_status_found in HP by (wsimpl; apply running_row_stored).
        unfold bind, modify, EnhancedTaskExecutor.count, modify, ret, raise in HP.
        wsimpl. subst pw. reflexivity.
      * unfold bind at 1 in HP. unfold bind at 1 in HP.
        erewrite update_task_status_found in HP by (wsimpl; apply running_row_stored).
        unfold bind, modify, EnhancedTaskExecutor.count, modify, ret, raise in HP.
        wsimpl. subst pw. reflexivity.
    + unfold ret at 1 in HP. unfold bind at 1 in HP. wsimpl.
      erewrite update_task_status_found in HP by (wsimpl; apply running_row_stored).
      unfold bind, modify, EnhancedTaskExecutor.count, modify, ret in HP. wsimpl.
      unfold RedisTaskQueue.complete_task, bind, get, modify in HP. wsimpl.
      cbv zeta.
      destruct (redis_client (redis_queue w)) eqn:Hrc; wsimpl; subst pw; reflexivity.
  - (* no handler for this kind *)
    exists [], 0, (inl (PyExn "ValueError"
                          ("Unknown task type: " +:+ Task.task_type task))).
    split; [right; done|].
    unfold raise at 1 in HP. wsimpl.
    unfold bind at 1, modify at 1 in HP. unfold bind at 1, get at 1 in HP. wsimpl.
    cbv zeta. rewrite Z.add_0_r, app_nil_r.
    destruct (should_retry (settings w) (clock w) u task
                (PyExn "ValueError" ("Unknown task type: " +:+ Task.task_type task))
                (record_failure (clock w) (Task.task_type task) (retry_handler w)))
      as [[retry delay] rh'] eqn:Hsr.
    unfold bind at 1, modify at 1 in HP. unfold bind at 1 in HP. wsimpl.
    destruct retry.
    + unfold EnhancedTaskExecutor._schedule_retry in HP.
      unfold bind at 1 in HP. unfold bind at 1 in HP.
      erewrite update_task_status_found in HP by (wsimpl; apply running_row_stored).
      unfold bind, modify, EnhancedTaskExecutor.count, modify, ret, raise in HP.
      wsimpl. subst pw. reflexivity.
    + unfold bind at 1 in HP. unfold bind at 1 in HP.
      erewrite update_task_status_found in HP by (wsimpl; apply running_row_stored).
      unfold bind, modify, EnhancedTaskExecutor.count, modify, ret, raise in HP.
      wsimpl. subst pw. reflexivity.
Qed.

(** ** What a delivery does to the counters, the table and the breakers *)

Lemma record_success_params (k : string) (rh : RetryHandler) :
  failure_threshold (record_success k rh) = failure_threshold rh
  /\ recovery_timeout (record_success k rh) = recovery_timeout rh.
Proof.
  unfold record_success. destruct (circuit_breakers rh !! k) as [b|]; [|done].
  by destruct (state b).
Qed.

Lemma should_retry_handler (cfg : Settings) (now : Z) (u : Q) (task : Task.t)
    (e : exn) (rh : RetryHandler) :
  (should_retry cfg now u task e rh).2 = rh
  \/ (should_retry cfg now u task e rh).2 =
       (_check_circuit_breaker now (Task.task_type task) rh).2.
Proof.
  unfold should_retry. destruct (_ <=? _); [by left|].
  destruct (_check_circuit_breaker now (Task.task_type task) rh) as [allowed rh'].
  right. destruct allowed; [|done]. by destruct (_calculate_retry_delay cfg u task e).
Qed.

Lemma should_retry_params (cfg : Settings) (now : Z) (u : Q) (task : Task.t)
    (e : exn) (rh : RetryHandler) :
  failure_threshold (should_retry cfg now u task e rh).2 = failure_threshold rh
  /\ recovery_timeout (should_retry cfg now u task e rh).2 = recovery_timeout rh.
Proof.
  destruct (should_retry_handler cfg now u task e rh) as [-> | ->]; [done|].
  apply check_breaker_threshold.
Qed.

(** A failure recorded at [now] followed at once by the retry decision. *)
Lemma open_survives_failure_path (cfg : Settings) (now : Z) (u : Q) (task : Task.t)
    (e : exn) (rh : RetryHandler) (k : string) :
  0 <= recovery_timeout rh ->
  state_of k rh = opened ->
  state_of k
    (should_retry cfg now u task e
       (record_failure now (Task.task_type task) rh)).2 = opened.
Proof.
  intros Ht Ho.
  assert (Hrf : state_of k (record_failure now (Task.task_type task) rh) = opened).
  { destruct (decide (Task.task_type task = k)) as [<-|Hne].
    - rewrite state_of_record_failure, Ho.
      by rewrite (bool_decide_eq_true_2 (opened = opened)), andb_false_r.
    - unfold state_of. rewrite record_failure_lookup_ne by done. exact Ho. }
  destruct (should_retry_handler cfg now u task e
              (record_failure now (Task.task_type task) rh)) as [-> | ->]; [done|].
  destruct (decide (Task.task_type task = k)) as [<-|Hne].
  2: { unfold state_of. rewrite check_breaker_lookup_ne by done. exact Hrf. }
  unfold _check_circuit_breaker.
  rewrite ensure_breaker_present by (rewrite record_failure_lookup; eauto).
  rewrite record_failure_lookup.
  rewrite state_of_record_failure in Hrf. rewrite Hrf.
  cbn [default from_option id state last_failure failures truthy_time].
  change (recovery_timeout (record_failure now (Task.task_type task) rh))
    with (recovery_timeout rh).
  rewrite Z.sub_diag.
  replace (recovery_timeout rh <? 0) with false by (symmetry; apply Z.ltb_ge; lia).
  rewrite andb_false_r. cbn [snd].
  unfold state_of. cbn [circuit_breakers with_breakers].
  rewrite record_failure_lookup. cbn [default from_option id state]. exact Hrf.
Qed.

Lemma table_wf_process_task (w : World) (env : Envelope.t) (run : HandlerRun) (u : Q) :
  table_wf (task_queue w) ->
  table_wf (task_queue (EnhancedWorker._process_task run u env w).2).
Proof.
  intros Hwf.
  destruct (table (task_queue w) !! Envelope.id env) as [task|] eqn:Hrow.
  2: { by rewrite process_task_unknown_id. }
  destruct (proj1 Hwf _ _ Hrow) as [Hid _].
  destruct (process_task_outcomes w env task run u Hrow Hid)
    as (called & dt & res & _ & ->). cbn [snd]. cbv zeta.
  assert (Hwf1 : table_wf
            (TaskQueue.store_row (TaskQueue.updated_row (clock w) RUNNING None None task)
               (task_queue w))).
  { apply (table_wf_store_row _ (Envelope.id env)); [done|eauto|].
    by rewrite updated_row_id. }
  assert (Hsome : is_Some
            (table (TaskQueue.store_row
                      (TaskQueue.updated_row (clock w) RUNNING None None task)
                      (task_queue w)) !! Envelope.id env)).
  { cbn [TaskQueue.store_row table]. rewrite updated_row_id, Hid, lookup_insert_eq.
    eauto. }
  destruct res as [e|r]; [destruct (should_retry _ _ _ _ _ _).1.1|]; wsimpl;
    (apply (table_wf_store_row _ (Envelope.id env)); [done|done|]);
    by rewrite !updated_row_id.
Qed.


(** X16. A task that fails with its retries used up is parked for good: its
    row becomes FAILED with the error text and a completion time, a dead
    letter is filed under its id that records the task's id, kind, payload,
    retry count, allowance and creation time, the text and the class name of
    the error, and the time of the failure, [failed] is counted, and no retry
    timer is armed.  The
    delivery is not acknowledged: the Redis state, in-flight marks included,
    is left as it was, and [tasks_processed] does not move. *)
Theorem exhausted_task_is_dead_lettered (w : World) (env : Envelope.t) (task : Task.t)
    (run : HandlerRun) (u : Q) (e : exn) :
  table (task_queue w) !! Envelope.id env = Some task ->
  Task.id task = Envelope.id env ->
  Task.task_type task ∈ TasksApi.valid_task_types ->
  outcome run = inl e ->
  Task.max_retries task <= Task.retry_count task ->
  (exists row,
      table (task_queue (EnhancedWorker._process_task run u env w).2) !! Task.id task =
        Some row
      /\ Task.status row = FAILED
      /\ Task.error_message row = Some (str e)
      /\ Task.completed_at row = Some (clock w + elapsed run))
  /\ (exists entry,
        dead_tasks (EnhancedWorker._process_task run u env w).2 !! Task.id task =
          Some entry
        /\ DeadLetter.task_id entry = Task.id task
        /\ DeadLetter.task_type entry = Task.task_type task
        /\ DeadLetter.payload entry = Task.payload task
        /\ DeadLetter.error_message entry = str e
        /\ DeadLetter.error_type entry = class_name e
        /\ DeadLetter.retry_count entry = Task.retry_count task
        /\ DeadLetter.max_retries entry = Task.max_retries task
        /\ DeadLetter.created_at entry = Task.created_at task
        /\ DeadLetter.failed_at entry = clock w + elapsed run)
  /\ failed (execution_stats (EnhancedWorker._process_task run u env w).2) =
       failed (execution_stats w) + 1
  /\ timers (EnhancedWorker._process_task run u env w).2 = timers w
  /\ redis_queue (EnhancedWorker._process_task run u env w).2 = redis_queue w
  /\ tasks_processed (EnhancedWorker._process_task run u env w).2 = tasks_processed w.
Proof.
  intros Hrow Hid Hkind Hout Hmax.
  destruct (process_task_outcomes w env task run u Hrow Hid)
    as (called & dt & res & [(_ & -> & -> & ->)|(Hk & _)] & ->); [|tauto].
  rewrite Hout. cbn [snd]. cbv zeta.
  rewrite (proj1 (should_retry_refuses _ _ _ _ _ _) Hmax). cbn [fst snd]. wsimpl.
  split; [|split; [|done]].
  - eexists. split.
    + cbn [TaskQueue.store_row table]. rewrite !updated_row_id. apply lookup_insert_eq.
    + split; [apply updated_row_status|]. split.
      * by destruct (updated_row_fields (clock w + elapsed run) FAILED None
                       (Some (str e))
                       (TaskQueue.updated_row (clock w) RUNNING None None task))
          as (_ & _ & _ & _ & _ & ->).
      * by rewrite updated_row_completed_at.
  - eexists. split; [unfold add_dead_letter; apply lookup_insert_eq|].
    unfold dead_letter_of. cbn. repeat split.
Qed.



(** ** An open breaker and the worker loop *)

Lemma process_task_returns (w : World) (env : Envelope.t) (run : HandlerRun) (u : Q) :
  EnhancedWorker._process_task run u env w =
    (inr tt, (EnhancedWorker._process_task run u env w).2).
Proof.
  unfold EnhancedWorker._process_task, try_except.
  match goal with |- context [bind ?m ?k w] => destruct (bind m k w) as [[e|[]] w'] end;
    reflexivity.
Qed.

(** The registry after one delivery is the old one, the old one after a
    success, or the old one after a failure and the retry decision. *)
Lemma process_task_retry_handler (w : World) (env : Envelope.t) (run : HandlerRun)
    (u : Q) :
  table_wf (task_queue w) ->
  retry_handler (EnhancedWorker._process_task run u env w).2 = retry_handler w
  \/ (exists k,
        retry_handler (EnhancedWorker._process_task run u env w).2 =
          record_success k (retry_handler w))
  \/ (exists now task e,
        retry_handler (EnhancedWorker._process_task run u env w).2 =
          (should_retry (settings w) now u task e
             (record_failure now (Task.task_type task) (retry_handler w))).2).
Proof.
  intros Hwf.
  destruct (table (task_queue w) !! Envelope.id env) as [task|] eqn:Hrow.
  2: { left. by rewrite process_task_unknown_id. }
  destruct (proj1 Hwf _ _ Hrow) as [Hid _].
  destruct (process_task_outcomes w env task run u Hrow Hid)
    as (called & dt & res & _ & ->). cbn [snd]. cbv zeta.
  destruct res as [e|r].
  - right. right. exists (clock w + dt), task, e.
    by destruct (should_retry _ _ _ _ _ _).1.1.
  - right. left. by exists (Task.task_type task).
Qed.

Lemma open_survives_delivery (w : World) (env : Envelope.t) (run : HandlerRun)
    (u : Q) (k : string) :
  table_wf (task_queue w) ->
  0 <= recovery_timeout (retry_handler w) ->
  state_of k (retry_handler w) = opened ->
  recovery_timeout (retry_handler (EnhancedWorker._process_task run u env w).2) =
    recovery_timeout (retry_handler w)
  /\ state_of k (retry_handler (EnhancedWorker._process_task run u env w).2) = opened.
Proof.
  intros Hwf Ht Ho.
  destruct (process_task_retry_handler w env run u Hwf)
    as [-> | [(k' & ->) | (now & task & e & ->)]].
  - done.
  - split; [apply (proj2 (record_success_params _ _))|].
    destruct (decide (k' = k)) as [->|Hne].
    + rewrite record_success_not_half_open; [done|]. by rewrite Ho.
    + unfold state_of. by rewrite record_success_lookup_ne.
  - split; [|by apply open_survives_failure_path].
    by rewrite (proj2 (should_retry_params _ _ _ _ _ _)).
Qed.

(** One turn of the loop is either idle or one delivery on a state that
    differs from the current one in the Redis queue only. *)
Lemma enhanced_step_cases (w : World) (run : HandlerRun) (u : Q) :
  (EnhancedWorker_step run u w).2 = w
  \/ exists env rq,
       (EnhancedWorker_step run u w).2 =
         (EnhancedWorker._process_task run u env (with_redis_queue rq w)).2.
Proof.
  unfold EnhancedWorker_step, try_except, bind.
  rewrite redis_get_next_task_result.
  destruct (redis_client (redis_queue w)); [|by left].
  destruct (last (redis_list (redis_queue w))) as [env|]; [|by left].
  right. eexists env, _. by rewrite process_task_returns.
Qed.

(** X18. Through the worker an OPEN breaker never recovers.  With a
    non-negative recovery timeout, a breaker that is OPEN stays OPEN over any
    number of turns of the worker loop, whatever the tasks and their
    outcomes: a success does not act on an OPEN breaker, and the retry
    decision, the only place the breaker is checked, always follows, at the
    same reading of the clock, a failure that has just set [last_failure]. *)
Theorem open_breaker_stays_open_in_the_worker (runs : list (HandlerRun * Q))
    (w : World) (k : string) :
  table_wf (task_queue w) ->
  0 <= recovery_timeout (retry_handler w) ->
  state_of k (retry_handler w) = opened ->
  state_of k (retry_handler (EnhancedWorker_steps runs w).2) = opened.
Proof.
  revert w. induction runs as [|[run u] runs IH]; intros w Hwf Ht Ho; [done|].
  cbn [EnhancedWorker_steps]. unfold bind.
  destruct (EnhancedWorker_step run u w) as [[e|[]] w'] eqn:Hstep.
  - (* a turn does not raise *)
    exfalso. unfold EnhancedWorker_step, try_except, bind, modify in Hstep.
    rewrite redis_get_next_task_result in Hstep.
    destruct (redis_client (redis_queue w)); [|done].
    destruct (last (redis_list (redis_queue w))); [|done].
    by rewrite process_task_returns in Hstep.
  - assert (Hw' : w' = (EnhancedWorker_step run u w).2) by (by rewrite Hstep).
    destruct (enhanced_step_cases w run u) as [Hsame|(env & rq & Hdel)].
    + apply IH; rewrite Hw', Hsame; done.
    + rewrite Hdel in Hw'.
      destruct (open_survives_delivery (with_redis_queue rq w) env run u k)
        as [Hto Hopen]; [done..|].
      apply IH; rewrite Hw'.
      * by apply table_wf_process_task.
      * by rewrite Hto.
      * done.
Qed.

(** ** The plain executor and its workers *)

Lemma plain_dispatch_recognized (run : HandlerRun) (task : Task.t) :
  Task.task_type task ∈ TasksApi.valid_task_types ->
  (if bool_decide (Task.task_type task = "text_processing")
   then TaskExecutor._process_text run task
   else if bool_decide (Task.task_type task = "ai_summarization")
   then TaskExecutor._ai_summarize run task
   else if bool_decide (Task.task_type task = "batch_processing")
   then TaskExecutor._batch_process run task
   else if bool_decide (Task.task_type task = "image_processing")
   then TaskExecutor._process_image run task
   else raise (PyExn "ValueError" ("Unknown task type: " +:+ Task.task_type task)))
  = EnhancedTaskExecutor.handler run task.
Proof.
  intros H. repeat case_bool_decide; try done.
  exfalso. apply list_elem_of_In in H. simpl in H. intuition congruence.
Qed.

(** The state in which the plain executor re-raises a handler's error. *)
Lemma plain_execute_task_failure (w : World) (task : Task.t) (run : HandlerRun)
    (e : exn) :
  table (task_queue w) !! Task.id task = Some task ->
  Task.task_type task ∈ TasksApi.valid_task_types ->
  outcome run = inl e ->
  TaskExecutor.execute_task run task w =
    (inl e,
     let now := clock w + elapsed run in
     let row1 := TaskQueue.updated_row (clock w) RUNNING None None task in
     let rowF := TaskQueue.updated_row now FAILED None (Some (str e)) row1 in
     let wF :=
       with_task_queue
         (TaskQueue.store_row rowF (TaskQueue.store_row row1 (task_queue w)))
         (with_handler_calls (handler_calls w ++ [Task.id task]) (with_clock now w)) in
     if Task.retry_count task <? Task.max_retries task
     then (TaskQueue.retry_task (Task.id task)
             (with_clock (now + retry_delay (settings w)) wF)).2
     else wF).
Proof.
  intros Hrow Hkind Hout.
  remember (TaskExecutor.execute_task run task w) as r eqn:Hr.
  unfold TaskExecutor.execute_task in Hr.
  rewrite plain_dispatch_recognized in Hr by done.
  unfold try_except at 1 in Hr. unfold bind at 1 in Hr.
  rewrite (update_task_status_found _ _ task) in Hr by done.
  unfold bind at 1 in Hr.
  unfold EnhancedTaskExecutor.handler, bind at 1, modify at 1 in Hr. wsimpl.
  rewrite Hout in Hr. unfold raise at 1 in Hr. wsimpl.
  unfold bind at 1 in Hr.
  erewrite update_task_status_found in Hr by (wsimpl; apply running_row_stored).
  wsimpl. cbv zeta.
  destruct (Task.retry_count task <? Task.max_retries task) eqn:Hcap.
  - unfold bind at 1 in Hr. unfold bind at 1, modify at 1 in Hr.
    unfold bind at 1 in Hr. wsimpl.
    match type of Hr with
    | context [TaskQueue.retry_task ?i ?w0] =>
        destruct (TaskQueue.retry_task i w0) as [[e'|row] w'] eqn:Hretry
    end.
    + (* the row is there, so the retry does not raise *)
      exfalso.
      match type of Hretry with
      | TaskQueue.retry_task ?i ?w0 = _ =>
          assert (Hr0 : is_Some (table (task_queue w0) !! i))
      end.
      { wsimpl. cbn [TaskQueue.store_row table]. rewrite !updated_row_id.
        rewrite lookup_insert_eq. eauto. }
      destruct Hr0 as [row0 Hr0].
      rewrite (retry_task_found _ _ row0 Hr0) in Hretry.
      by destruct (_ <=? _).
    + unfold bind, ret, raise in Hr. subst r.
      apply (f_equal snd) in Hretry. cbn [snd] in Hretry. rewrite <- Hretry.
      reflexivity.
  - unfold bind, ret, raise in Hr. subst r. reflexivity.
Qed.

(** The row left by the FAILED update that precedes the retry. *)
Lemma failed_row_fields (now0 now : Z) (msg : string) (task : Task.t) :
  Task.id (TaskQueue.updated_row now FAILED None (Some msg)
             (TaskQueue.updated_row now0 RUNNING None None task)) = Task.id task
  /\ Task.task_type (TaskQueue.updated_row now FAILED None (Some msg)
                       (TaskQueue.updated_row now0 RUNNING None None task)) =
       Task.task_type task
  /\ Task.retry_count (TaskQueue.updated_row now FAILED None (Some msg)
                         (TaskQueue.updated_row now0 RUNNING None None task)) =
       Task.retry_count task
  /\ Task.max_retries (TaskQueue.updated_row now FAILED None (Some msg)
                         (TaskQueue.updated_row now0 RUNNING None None task)) =
       Task.max_retries task
  /\ Task.status (TaskQueue.updated_row now FAILED None (Some msg)
                    (TaskQueue.updated_row now0 RUNNING None None task)) = FAILED.
Proof.
  rewrite !updated_row_id, !updated_row_retry_count, updated_row_status.
  destruct (updated_row_fields now FAILED None (Some msg)
              (TaskQueue.updated_row now0 RUNNING None None task))
    as (-> & _ & -> & _).
  destruct (updated_row_fields now0 RUNNING None None task) as (-> & _ & -> & _).
  done.
Qed.

(** What a failed execution by the plain executor leaves in the table. *)
Lemma plain_execute_task_failure_row (w : World) (task : Task.t) (run : HandlerRun)
    (e : exn) :
  table (task_queue w) !! Task.id task = Some task ->
  Task.task_type task ∈ TasksApi.valid_task_types ->
  outcome run = inl e ->
  (TaskExecutor.execute_task run task w).1 = inl e
  /\ handler_calls (TaskExecutor.execute_task run task w).2 =
       handler_calls w ++ [Task.id task]
  /\ redis_queue (TaskExecutor.execute_task run task w).2 = redis_queue w
  /\ exists row,
       table (task_queue (TaskExecutor.execute_task run task w).2) !! Task.id task =
         Some row
       /\ Task.id row = Task.id task
       /\ Task.task_type row = Task.task_type task
       /\ Task.max_retries row = Task.max_retries task
       /\ if Task.retry_count task <? Task.max_retries task
          then Task.status row = RETRYING
               /\ Task.retry_count row = Task.retry_count task + 1
               /\ _queue (task_queue (TaskExecutor.execute_task run task w).2) =
                    _queue (task_queue w) ++ [Task.id task]
          else Task.status row = FAILED
               /\ Task.retry_count row = Task.retry_count task
               /\ _queue (task_queue (TaskExecutor.execute_task run task w).2) =
                    _queue (task_queue w).
Proof.
  intros Hrow Hkind Hout.
  rewrite (plain_execute_task_failure w task run e) by done. cbn [fst snd]. cbv zeta.
  destruct (failed_row_fields (clock w) (clock w + elapsed run) (str e) task)
    as (Hid & Hty & Hrc & Hmax & Hst).
  destruct (Task.retry_count task <? Task.max_retries task) eqn:Hcap.
  - match goal with
    | |- context [TaskQueue.retry_task ?i ?w0] =>
        assert (Hr0 : table (task_queue w0) !! i =
                  Some (TaskQueue.updated_row (clock w + elapsed run) FAILED None
                          (Some (str e))
                          (TaskQueue.updated_row (clock w) RUNNING None None task)))
    end.
    { wsimpl. cbn [TaskQueue.store_row table]. rewrite !updated_row_id.
      apply lookup_insert_eq. }
    rewrite (retry_task_found _ _ _ Hr0). rewrite Hmax, Hrc.
    apply Z.ltb_lt in Hcap.
    replace (Task.max_retries task <=? Task.retry_count task) with false
      by (symmetry; apply Z.leb_gt; done).
    wsimpl. cbn [snd]. wsimpl. split; [done|]. split; [done|]. split; [done|].
    eexists. split; [cbn [table]; apply lookup_insert_eq|].
    cbn [Task.id Task.task_type Task.max_retries Task.status Task.retry_count
         Task.with_error_message Task.with_status Task.with_retry_count _queue
         TaskQueue.store_row].
    rewrite ?Hid, ?Hty, ?Hmax, ?Hrc. done.
  - wsimpl. split; [done|]. split; [done|]. split; [done|].
    eexists. split.
    + cbn [TaskQueue.store_row table]. rewrite !updated_row_id. apply lookup_insert_eq.
    + rewrite Hid, Hty, Hmax, Hrc, Hst. done.
Qed.

Lemma worker_step_returns (w : World) (run : HandlerRun) :
  Worker.step run w = (inr tt, (Worker.step run w).2).
Proof.
  unfold Worker.step, try_except.
  match goal with |- context [bind ?m ?k w] => destruct (bind m k w) as [[e|[]] w'] end;
    reflexivity.
Qed.

(** One turn of the plain worker on a task whose handler raises. *)
Lemma worker_step_failing (w : World) (task_id : Z) (rest : list Z) (task : Task.t)
    (run : HandlerRun) (e : exn) :
  table (task_queue w) !! task_id = Some task ->
  Task.id task = task_id ->
  Task.task_type task ∈ TasksApi.valid_task_types ->
  _queue (task_queue w) = task_id :: rest ->
  outcome run = inl e ->
  handler_calls (Worker.step run w).2 = handler_calls w ++ [task_id]
  /\ exists row,
       table (task_queue (Worker.step run w).2) !! task_id = Some row
       /\ Task.id row = task_id
       /\ Task.task_type row = Task.task_type task
       /\ Task.max_retries row = Task.max_retries task
       /\ if Task.retry_count task <? Task.max_retries task
          then Task.status row = RETRYING
               /\ Task.retry_count row = Task.retry_count task + 1
               /\ _queue (task_queue (Worker.step run w).2) = rest ++ [task_id]
          else Task.status row = FAILED
               /\ Task.retry_count row = Task.retry_count task
               /\ _queue (task_queue (Worker.step run w).2) = rest.
Proof.
  intros Hrow Hid Hkind Hqueue Hout. subst task_id.
  remember (Worker.step run w) as r eqn:Hr.
  unfold Worker.step, try_except in Hr. unfold bind at 1 in Hr.
  rewrite get_next_task_result, Hqueue, Hrow in Hr. unfold bind at 1 in Hr.
  match type of Hr with
  | context [TaskExecutor.execute_task run task ?w0] =>
      destruct (plain_execute_task_failure_row w0 task run e)
        as (Hres & Hcalls & _ & row & Hrow' & Hfields);
        [wsimpl; cbn [table]; done|done|done|];
      destruct (TaskExecutor.execute_task run task w0) as [res w'] eqn:Hexec
  end.
  cbn [fst snd] in *. subst res. unfold modify in Hr. subst r. wsimpl.
  cbn [_queue] in Hfields.
  split; [done|]. exists row. split; [exact Hrow'|]. exact Hfields.
Qed.

(** X19. The plain worker retries a failing task until its allowance is used
    up and then stops.  With the task alone in the queue and its handler
    raising every time, after [max_retries - retry_count + 1] turns of the
    loop the row is FAILED with [retry_count = max_retries], the queue is
    empty, and the handler has run once per turn. *)
Theorem plain_worker_retries_until_exhausted (runs : list HandlerRun) (w : World)
    (task_id : Z) (task : Task.t) :
  table (task_queue w) !! task_id = Some task ->
  Task.id task = task_id ->
  Task.task_type task ∈ TasksApi.valid_task_types ->
  _queue (task_queue w) = [task_id] ->
  Task.retry_count task <= Task.max_retries task ->
  Forall (fun run => exists e, outcome run = inl e) runs ->
  Z.of_nat (length runs) = Task.max_retries task - Task.retry_count task + 1 ->
  exists row,
    table (task_queue (Worker.steps runs w).2) !! task_id = Some row
    /\ Task.status row = FAILED
    /\ Task.retry_count row = Task.max_retries task
    /\ _queue (task_queue (Worker.steps runs w).2) = []
    /\ handler_calls (Worker.steps runs w).2 =
         handler_calls w ++ replicate (length runs) task_id.
Proof.
  revert w task.
  induction runs as [|run runs IH]; intros w task Hrow Hid Hkind Hqueue Hle Hfail Hlen.
  { simpl in Hlen. lia. }
  apply Forall_cons in Hfail as [[e Hout] Hfail].
  cbn [Worker.steps]. unfold bind. rewrite worker_step_returns.
  destruct (worker_step_failing w task_id [] task run e Hrow Hid Hkind Hqueue Hout)
    as (Hcalls & row & Hrow' & Hid' & Hty' & Hmax' & Hcase).
  destruct (Task.retry_count task <? Task.max_retries task) eqn:Hcap.
  - apply Z.ltb_lt in Hcap. destruct Hcase as (_ & Hrc' & Hq').
    destruct (IH (Worker.step run w).2 row) as (row2 & H1 & H2 & H3 & H4 & H5);
      try done.
    + by rewrite Hty'.
    + lia.
    + cbn [length] in Hlen. lia.
    + exists row2. split; [done|]. split; [done|]. split; [congruence|].
      split; [done|]. rewrite H5, Hcalls. cbn [length replicate].
      by rewrite <- app_assoc.
  - apply Z.ltb_ge in Hcap. destruct Hcase as (Hst' & Hrc' & Hq').
    assert (runs = []) as ->.
    { cbn [length] in Hlen. destruct runs; [done|]. cbn [length] in Hlen. lia. }
    cbn [Worker.steps ret snd length replicate].
    exists row. split; [done|]. split; [done|]. split; [lia|]. done.
Qed.

(** X20. The Redis worker's own handling of a failure never takes effect:
    its handler names [TaskStatus], which the module does not import, so a
    NameError is raised before the row is touched and the inner handler
    swallows it.  After a failing execution the state is the one the plain
    executor left behind: the handler ran once, the delivery is not
    acknowledged, and the row is RETRYING with the stored retry count raised
    by one and the id queued once when a retry was left, FAILED with the
    count and the queue as before when none was left. *)
Theorem redis_worker_leaves_failures_to_the_executor (w : World) (env : Envelope.t)
    (task : Task.t) (run : HandlerRun) (e : exn) :
  table (task_queue w) !! Envelope.id env = Some task ->
  Task.id task = Envelope.id env ->
  Task.task_type task ∈ TasksApi.valid_task_types ->
  outcome run = inl e ->
  RedisWorker._process_task run env w =
    (inr tt, (TaskExecutor.execute_task run task w).2)
  /\ handler_calls (RedisWorker._process_task run env w).2 =
       handler_calls w ++ [Task.id task]
  /\ redis_queue (RedisWorker._process_task run env w).2 = redis_queue w
  /\ exists row,
       table (task_queue (RedisWorker._process_task run env w).2) !! Task.id task =
         Some row
       /\ if Task.retry_count task <? Task.max_retries task
          then Task.status row = RETRYING
               /\ Task.retry_count row = Task.retry_count task + 1
               /\ _queue (task_queue (RedisWorker._process_task run env w).2) =
                    _queue (task_queue w) ++ [Task.id task]
          else Task.status row = FAILED
               /\ Task.retry_count row = Task.retry_count task
               /\ _queue (task_queue (RedisWorker._process_task run env w).2) =
                    _queue (task_queue w).
Proof.
  intros Hrow Hid Hkind Hout. rewrite <- Hid in *.
  destruct (plain_execute_task_failure_row w task run e Hrow Hkind Hout)
    as (Hres & Hcalls & Hredis & row & Hrow' & _ & _ & _ & Hcase).
  assert (Hrun : RedisWorker._process_task run env w =
                 (inr tt, (TaskExecutor.execute_task run task w).2)).
  { unfold RedisWorker._process_task. rewrite <- Hid.
    unfold bind at 1, TaskQueue.get_task at 1, bind at 1, get at 1, ret at 1.
    rewrite Hrow. unfold try_except at 1. unfold bind at 1.
    destruct (TaskExecutor.execute_task run task w) as [res w1].
    cbn [fst snd] in *. subst res. reflexivity. }
  rewrite Hrun. cbn [snd]. split; [done|]. split; [done|]. split; [done|].
  by exists row.
Qed.

(** ** The routes *)

Lemma retry_dead_letter_returns (w : World) (task_id : Z) :
  exists b, DeadLetterQueue.retry_dead_letter task_id w =
              (inr b, (DeadLetterQueue.retry_dead_letter task_id w).2).
Proof.
  remember (DeadLetterQueue.retry_dead_letter task_id w) as r eqn:Hr.
  unfold DeadLetterQueue.retry_dead_letter in Hr. unfold bind at 1, get at 1 in Hr.
  destruct (dead_tasks w !! task_id) as [dead_task|]; [|subst r; by eexists].
  unfold try_except in Hr.
  match type of Hr with
  | context [bind ?m ?k w] => destruct (bind m k w) as [[e|b] w']
  end; subst r; by eexists.
Qed.

(** Without a Redis client the requeue gives up half way. *)
Lemma retry_dead_letter_without_client (w : World) (task_id : Z)
    (dead_task : DeadLetter.t) (task : Task.t) :
  dead_tasks w !! task_id = Some dead_task ->
  table (task_queue w) !! task_id = Some task ->
  redis_client (redis_queue w) = false ->
  DeadLetterQueue.retry_dead_letter task_id w =
    (inr false,
     (TaskQueue.create_task (Task.task_type task) (PyStr (DeadLetter.payload dead_task))
        (TaskQueue.update_task_status task_id PENDING None None w).2).2).
Proof.
  intros Hdead Hrow Hrc.
  unfold DeadLetterQueue.retry_dead_letter.
  unfold bind at 1, get at 1. rewrite Hdead.
  unfold try_except, bind at 1, TaskQueue.get_task, bind at 1, get, ret.
  rewrite Hrow. unfold bind at 1.
  rewrite (update_task_status_found _ _ task) by done. cbn [snd].
  unfold bind at 1. unfold RedisTaskQueue.create_task. unfold bind at 1.
  rewrite create_task_result. cbn [snd].
  unfold bind at 1. unfold RedisTaskQueue.lpush, bind, get, raise. wsimpl.
  rewrite Hrc. reflexivity.
Qed.

(** X21. The requeue route answers 200 or 404 and never 500, 200 exactly
    when the requeue reports success; an id without dead letter gets 404 and
    nothing changes.  The 404 is also the answer when the entry exists but
    the push to Redis fails for want of a client, and then the work done so
    far stays: the stored row is already PENDING and a new row has been
    inserted, while the dead letter is still there. *)
Theorem requeue_route_answers_200_or_404 (w : World) (task_id : Z) :
  (TasksApi.response_status 200 (RetryManagementApi.retry_dead_letter task_id w).1 = 200
   /\ (DeadLetterQueue.retry_dead_letter task_id w).1 = inr true
   \/ TasksApi.response_status 200 (RetryManagementApi.retry_dead_letter task_id w).1
        = 404
      /\ (DeadLetterQueue.retry_dead_letter task_id w).1 = inr false)
  /\ (dead_tasks w !! task_id = None ->
      TasksApi.response_status 200 (RetryManagementApi.retry_dead_letter task_id w).1
        = 404
      /\ (RetryManagementApi.retry_dead_letter task_id w).2 = w)
  /\ (forall dead_task task,
        dead_tasks w !! task_id = Some dead_task ->
        table (task_queue w) !! task_id = Some task ->
        Task.id task = task_id ->
        task_id <> next_id (task_queue w) ->
        redis_client (redis_queue w) = false ->
        TasksApi.response_status 200
          (RetryManagementApi.retry_dead_letter task_id w).1 = 404
        /\ dead_tasks (RetryManagementApi.retry_dead_letter task_id w).2 !! task_id =
             Some dead_task
        /\ Task.status <$>
             table (task_queue (RetryManagementApi.retry_dead_letter task_id w).2)
               !! task_id = Some PENDING
        /\ is_Some
             (table (task_queue (RetryManagementApi.retry_dead_letter task_id w).2)
                !! next_id (task_queue w))).
Proof.
  split; [|split].
  - unfold RetryManagementApi.retry_dead_letter, try_except, bind.
    destruct (retry_dead_letter_returns w task_id) as [b ->]. cbn [fst].
    destruct b; [left|right]; done.
  - intros Hdead.
    unfold RetryManagementApi.retry_dead_letter, try_except, bind.
    by rewrite retry_dead_letter_absent.
  - intros dead_task task Hdead Hrow Hid Hfresh Hrc.
    unfold RetryManagementApi.retry_dead_letter, try_except, bind.
    rewrite (retry_dead_letter_without_client w task_id dead_task task) by done.
    unfold raise. cbn [fst snd TasksApi.response_status].
    rewrite (update_task_status_found _ _ task) by done. cbn [snd].
    rewrite create_task_result. wsimpl.
    cbn [TaskQueue.store_row table next_id].
    split; [done|]. split; [done|]. split.
    + rewrite lookup_insert_ne by done.
      rewrite updated_row_id, Hid, lookup_insert_eq. cbn [fmap option_fmap option_map].
      by rewrite updated_row_status.
    + rewrite lookup_insert_eq. eauto.
Qed.

(** X22. A submission that fails on Redis is not undone.  For a recognized
    kind, when the client is missing the route answers 500, but the new row
    has been inserted as PENDING and its id put on the in-memory queue;
    nothing reached the Redis list. *)
Theorem submit_without_redis_leaves_the_row (w : World) (kind : string)
    (payload : pyobj) :
  kind ∈ TasksApi.valid_task_types ->
  redis_client (redis_queue w) = false ->
  TasksApi.response_status 201 (TasksApi.create_task kind payload w).1 = 500
  /\ (exists row,
        table (task_queue (TasksApi.create_task kind payload w).2)
          !! next_id (task_queue w) = Some row
        /\ Task.status row = PENDING
        /\ Task.task_type row = kind)
  /\ _queue (task_queue (TasksApi.create_task kind payload w).2) =
       _queue (task_queue w) ++ [next_id (task_queue w)]
  /\ redis_queue (TasksApi.create_task kind payload w).2 = redis_queue w.
Proof.
  intros Hk Hrc.
  remember (TasksApi.create_task kind payload w) as r eqn:Hr.
  unfold TasksApi.create_task, try_except, bind in Hr.
  rewrite bool_decide_eq_true_2 in Hr by done.
  unfold RedisTaskQueue.create_task, TaskQueue.create_task, RedisTaskQueue.lpush in Hr.
  unfold bind, get, modify, ret, raise in Hr. wsimpl.
  rewrite Hrc in Hr. subst r. wsimpl. cbn [TasksApi.response_status table _queue].
  split; [done|]. split; [|done].
  eexists. split; [apply lookup_insert_eq|]. done.
Qed.

Lemma count_by_state (l : list Breaker) :
  length l =
    (length (filter (fun cb => state cb = opened) l)
     + length (filter (fun cb => state cb = half_open) l)
     + length (filter (fun cb => state cb = closed) l))%nat.
Proof.
  induction l as [|cb l IH]; [done|].
  rewrite !filter_cons. cbn [length]. rewrite IH.
  destruct (state cb); repeat case_decide; try done; cbn [length]; lia.
Qed.

(** X23. In the statistics of the breakers every record is counted once:
    the total equals the open, half-open and closed counts together. *)
Theorem breaker_statistics_add_up (rh : RetryHandler) :
  RetryManagementApi.total_circuit_breakers (RetryManagementApi.cb_stats rh) =
    RetryManagementApi.open_circuits (RetryManagementApi.cb_stats rh)
    + RetryManagementApi.half_open_circuits (RetryManagementApi.cb_stats rh)
    + RetryManagementApi.closed_circuits (RetryManagementApi.cb_stats rh).
Proof.
  unfold RetryManagementApi.cb_stats, RetryManagementApi.count_state,
    get_circuit_breaker_status. simpl.
  rewrite <- length_map_to_list, <- (length_fmap snd).
  rewrite (count_by_state (map_to_list (circuit_breakers rh)).*2). lia.
Qed.

(** ** Instances of the further properties *)

Lemma table_wf_world_with (task : Task.t) (next : Z) :
  Task.id task < next -> table_wf (task_queue (world_with task next)).
Proof.
  intros Hlt. split.
  - intros k t Hk. simpl in Hk. apply lookup_singleton_Some in Hk as [<- <-]. done.
  - intros k Hk. simpl in Hk. by apply elem_of_nil in Hk.
Qed.

Lemma table_wf_queued_world : table_wf (task_queue queued_world).
Proof.
  split.
  - intros k t Hk. simpl in Hk. apply lookup_singleton_Some in Hk as [<- <-].
    split; [reflexivity|]. simpl. lia.
  - intros k Hk. simpl in Hk. apply list_elem_of_singleton in Hk as ->.
    simpl. rewrite lookup_singleton_eq. eauto.
Qed.

Lemma failure_in_half_open_reopens_witness :
  tripped_wf (_check_circuit_breaker 161 "text_processing" tripped_handler).2
  /\ circuit_breakers
       (record_failure 170 "text_processing"
          (_check_circuit_breaker 161 "text_processing" tripped_handler).2)
       !! "text_processing" =
       Some {| failures :=
                 failures_of "text_processing"
                   (_check_circuit_breaker 161 "text_processing" tripped_handler).2 + 1;
               last_failure := Some 170;
               state := opened |}.
Proof.
  assert (Hwf : tripped_wf
            (_check_circuit_breaker 161 "text_processing" tripped_handler).2).
  { intros k b Hb _. vm_compute in Hb.
    destruct (decide (k = "text_processing")) as [->|Hne].
    - vm_compute in Hb. injection Hb as <-. vm_compute. discriminate.
    - change (({["text_processing" :=
                   {| failures := 5; last_failure := Some 100; state := half_open |}]}
               : gmap string Breaker) !! k = Some b) in Hb.
      rewrite lookup_singleton_ne in Hb by done. discriminate Hb. }
  split; [exact Hwf|].
  refine (proj2 (failure_in_half_open_reopens _ "text_processing" 170 Hwf) _).
  reflexivity.
Defined.

Lemma retry_delay_is_capped_witness :
  _calculate_retry_delay default_settings draw_0_15 retried_twice rate_limited = inr 23
  /\ 23 <= 300
  /\ _calculate_retry_delay default_settings draw_0_15
       (Task.with_retry_count 1022 pending_task) rate_limited =
       inl (PyExn "OverflowError" "int too large to convert to float")
  /\ class_name (PyExn "OverflowError" "int too large to convert to float")
       ∈ ["OverflowError"; "ValueError"].
Proof.
  assert (Hreturns : _calculate_retry_delay default_settings draw_0_15 retried_twice
                       rate_limited = inr 23) by (vm_compute; reflexivity).
  assert (Hraises : _calculate_retry_delay default_settings draw_0_15
                      (Task.with_retry_count 1022 pending_task) rate_limited =
                      inl (PyExn "OverflowError" "int too large to convert to float"))
    by (vm_compute; reflexivity).
  split; [exact Hreturns|]. split.
  - destruct (retry_delay_is_capped default_settings draw_0_15 retried_twice rate_limited)
      as (Hcap & _).
    + simpl. lia.
    + exact (proj1 (Hcap 23 Hreturns)).
  - split; [exact Hraises|].
    destruct (retry_delay_is_capped default_settings draw_0_15
                (Task.with_retry_count 1022 pending_task) rate_limited)
      as (_ & _ & Hraised).
    + simpl. lia.
    + exact (proj2 (Hraised _ Hraises)).
Defined.

Lemma retry_delay_grows_with_attempts_witness :
  exists delay1 delay2,
    _calculate_retry_delay default_settings draw_0_15
      (Task.with_retry_count 1 pending_task) (PyExn "TimeoutError" "boom") = inr delay1
    /\ _calculate_retry_delay default_settings draw_0_15
         (Task.with_retry_count 2 pending_task) (PyExn "TimeoutError" "boom") = inr delay2
    /\ delay1 <= delay2.
Proof.
  apply (retry_delay_grows_with_attempts default_settings draw_0_15
           (Task.with_retry_count 1 pending_task)
           (Task.with_retry_count 2 pending_task) (PyExn "TimeoutError" "boom")).
  - simpl. lia.
  - rewrite list_elem_of_In. simpl. intuition discriminate.
  - simpl. lia.
  - simpl. lia.
Defined.

Lemma task_table_stays_well_formed_witness :
  table_wf (task_queue (world_with pending_task 2))
  /\ table_wf (task_queue (TaskQueue.retry_task 1 (world_with pending_task 2)).2).
Proof.
  assert (Hwf : table_wf (task_queue (world_with pending_task 2)))
    by (apply table_wf_world_with; simpl; lia).
  split; [exact Hwf|].
  destruct (task_table_stays_well_formed (world_with pending_task 2) Hwf)
    as (_ & _ & Hretry & _).
  apply Hretry.
Defined.

Lemma create_task_adds_one_fresh_row_witness :
  table_wf (task_queue (world_with pending_task 2))
  /\ exists task,
       (TaskQueue.create_task "batch_processing" (PyDict "{}")
          (world_with pending_task 2)).1 = inr task
       /\ table (task_queue (world_with pending_task 2)) !! Task.id task = None.
Proof.
  assert (Hwf : table_wf (task_queue (world_with pending_task 2)))
    by (apply table_wf_world_with; simpl; lia).
  split; [exact Hwf|].
  destruct (create_task_adds_one_fresh_row (world_with pending_task 2)
              "batch_processing" (PyDict "{}") Hwf) as (task & Hres & Hfresh & _).
  exists task. split; [exact Hres|exact Hfresh].
Defined.

Lemma task_queue_is_first_in_first_out_witness :
  table_wf (task_queue queued_world)
  /\ (_queue (task_queue queued_world) = [1] ->
      exists task,
        (TaskQueue_get_next_task queued_world).1 = inr (Some task)
        /\ Task.id task = 1).
Proof.
  split; [exact table_wf_queued_world|].
  intros Hq.
  destruct (proj1 (task_queue_is_first_in_first_out queued_world table_wf_queued_world)
              1 [] Hq) as (task & Hres & Hid & _).
  exists task. split; [exact Hres|exact Hid].
Defined.

Lemma update_task_status_touches_one_row_witness :
  table (task_queue (world_with pending_task 2)) !! 1 = Some pending_task
  /\ exists row,
       (TaskQueue.update_task_status 1 RUNNING None None
          (world_with pending_task 2)).1 = inr row.
Proof.
  split; [reflexivity|].
  destruct (update_task_status_touches_one_row (world_with pending_task 2) 1
              pending_task RUNNING None None) as (row & Hres & _).
  - reflexivity.
  - reflexivity.
  - exists row. exact Hres.
Defined.

Lemma retry_task_respects_the_allowance_witness :
  retry_bounded (task_queue (world_with pending_task 2))
  /\ retry_bounded (task_queue (TaskQueue.retry_task 1 (world_with pending_task 2)).2).
Proof.
  assert (Hb : retry_bounded (task_queue (world_with pending_task 2))).
  { intros k t Hk. simpl in Hk. apply lookup_singleton_Some in Hk as [<- <-].
    simpl. lia. }
  split; [exact Hb|].
  exact (proj1 (retry_task_respects_the_allowance (world_with pending_task 2) 1 Hb)).
Defined.

Lemma submit_take_acknowledge_witness :
  redis_list (redis_queue initial_world) = []
  /\ exists task env,
       (RedisTaskQueue.create_task "text_processing" (PyDict "{}") initial_world).1 =
         inr task
       /\ (RedisTaskQueue.get_next_task
             (RedisTaskQueue.create_task "text_processing" (PyDict "{}")
                initial_world).2).1 = inr (Some env)
       /\ Envelope.id env = Task.id task.
Proof.
  split; [reflexivity|].
  destruct (submit_take_acknowledge initial_world "text_processing" (PyDict "{}"))
    as (task & env & Hc & Hn & Hid & _).
  - reflexivity.
  - reflexivity.
  - exists task, env. split; [exact Hc|]. split; [exact Hn|exact Hid].
Defined.


Lemma exhausted_task_is_dead_lettered_witness :
  Task.max_retries failed_task <= Task.retry_count failed_task
  /\ exists entry,
       dead_tasks
         (EnhancedWorker._process_task timeout_run (1 # 5)%Q envelope_42
            (world_with failed_task 43)).2 !! 42 = Some entry
       /\ DeadLetter.error_type entry = "TimeoutError"
       /\ DeadLetter.retry_count entry = 3
       /\ DeadLetter.failed_at entry = 4.
Proof.
  split; [simpl; lia|].
  destruct (exhausted_task_is_dead_lettered (world_with failed_task 43)
              envelope_42 failed_task timeout_run (1 # 5)%Q
              (PyExn "TimeoutError" "boom"))
    as (_ & (entry & Hentry & _ & _ & _ & _ & Hclass & Hcount & _ & _ & Hat) & _).
  - reflexivity.
  - reflexivity.
  - apply list_elem_of_In. simpl. tauto.
  - reflexivity.
  - simpl. lia.
  - exists entry. split; [exact Hentry|]. split; [exact Hclass|].
    split; [exact Hcount|exact Hat].
Defined.


Lemma open_breaker_stays_open_in_the_worker_witness :
  state_of "text_processing" (retry_handler tripped_world) = opened
  /\ state_of "text_processing"
       (retry_handler
          (EnhancedWorker_steps [(timeout_run, (1 # 5)%Q); (returning_run, (1 # 5)%Q)]
             tripped_world).2) = opened.
Proof.
  split; [reflexivity|].
  apply (open_breaker_stays_open_in_the_worker
           [(timeout_run, (1 # 5)%Q); (returning_run, (1 # 5)%Q)] tripped_world
           "text_processing").
  - apply (table_wf_world_with pending_task 2). simpl. lia.
  - simpl. lia.
  - reflexivity.
Defined.

Lemma plain_worker_retries_until_exhausted_witness :
  _queue (task_queue queued_world) = [1]
  /\ exists row,
       table (task_queue
         (Worker.steps [timeout_run; timeout_run; timeout_run; timeout_run]
            queued_world).2) !! 1 = Some row
       /\ Task.status row = FAILED
       /\ Task.retry_count row = 3.
Proof.
  split; [reflexivity|].
  destruct (plain_worker_retries_until_exhausted
              [timeout_run; timeout_run; timeout_run; timeout_run] queued_world 1
              pending_task) as (row & Hrow & Hst & Hrc & _).
  - reflexivity.
  - reflexivity.
  - apply list_elem_of_In. simpl. tauto.
  - reflexivity.
  - simpl. lia.
  - repeat constructor; by exists (PyExn "TimeoutError" "boom").
  - reflexivity.
  - exists row. split; [exact Hrow|]. split; [exact Hst|exact Hrc].
Defined.

Lemma redis_worker_leaves_failures_to_the_executor_witness :
  exists row,
    table (task_queue (RedisWorker._process_task timeout_run envelope_1
                         (world_with pending_task 2)).2) !! 1 = Some row
    /\ Task.status row = RETRYING
    /\ Task.retry_count row = 1
    /\ _queue (task_queue (RedisWorker._process_task timeout_run envelope_1
                             (world_with pending_task 2)).2) = [1].
Proof.
  destruct (redis_worker_leaves_failures_to_the_executor (world_with pending_task 2)
              envelope_1 pending_task timeout_run (PyExn "TimeoutError" "boom"))
    as (_ & _ & _ & row & Hrow & Hcase).
  - reflexivity.
  - reflexivity.
  - apply list_elem_of_In. simpl. tauto.
  - reflexivity.
  - exists row. split; [exact Hrow|]. exact Hcase.
Defined.

Lemma submit_without_redis_leaves_the_row_witness :
  redis_client
    (redis_queue
       (with_redis_queue
          {| redis_client := false; redis_list := []; processing := ∅ |}
          initial_world)) = false
  /\ TasksApi.response_status 201
       (TasksApi.create_task "text_processing" (PyDict "{}")
          (with_redis_queue
             {| redis_client := false; redis_list := []; processing := ∅ |}
             initial_world)).1 = 500.
Proof.
  split; [reflexivity|].
  refine (proj1 (submit_without_redis_leaves_the_row
                   (with_redis_queue
                      {| redis_client := false; redis_list := []; processing := ∅ |}
                      initial_world) "text_processing" (PyDict "{}") _ _)).
  - apply list_elem_of_In. simpl. tauto.
  - reflexivity.
Defined.
